(** * BlueprintX-AI: the 3D reconstruction core of [components/Viewer3D.tsx]

    A shallow embedding of the pure part of the viewer: the coordinate
    mapper [mapCoord], the wall builder [WallSegment] with its door sweep
    [relevantDoors], the door assembly [DoorMesh], the room floor
    [RoomFloor] and the composer [SceneContent], followed by the properties
    of the specification, each settled against these definitions.

    Numbers are JavaScript numbers, that is IEEE 754 binary64: they are
    embedded as Rocq's primitive floats, so every definition below runs on
    concrete plans exactly as the source does.  A property access on
    [undefined] raises a [TypeError]; code that can raise lives in the small
    [result] monad.  React's [useMemo] is the identity on the value it
    caches and is dropped.

    The second part embeds what surrounds the viewer: the state of [App]
    with its handlers, the banner of the report panel, the toolbar of the
    3D viewer, the room overlays of the 2D viewer and the decoder of the
    voice report. *)

From Stdlib Require Import Floats List Bool String ZArith Lia Strings.Byte.
From Stdlib Require Uint63.
Import ListNotations.

Set Warnings "-inexact-float,-register-all".

Open Scope string_scope.
Open Scope float_scope.

(** ** JavaScript values and exceptions *)

(** What a JSON field can hold when the code inspects it with [typeof]. *)
Inductive value : Type :=
| VUndefined
| VNull
| VBool (b : bool)
| VNum (f : float)
| VStr (s : string).

Inductive exn : Type :=
| TypeError.

Inductive result (A : Type) : Type :=
| Ok (a : A)
| Throw (e : exn).

Arguments Ok {A} a.
Arguments Throw {A} e.

Definition bind {A B : Type} (c : result A) (k : A -> result B) : result B :=
  match c with
  | Ok a => k a
  | Throw e => Throw e
  end.

Notation "x <- c ;; k" := (bind c (fun x => k))
  (at level 61, c at next level, right associativity).

(** [Array.prototype.filter] and [map] with a callback that may raise: the
    callback runs on the elements from left to right and the first
    exception aborts the whole call. *)
Fixpoint filterM {A : Type} (p : A -> result bool) (l : list A) : result (list A) :=
  match l with
  | [] => Ok []
  | a :: l' =>
      b <- p a ;;
      r <- filterM p l' ;;
      Ok (if b then a :: r else r)
  end.

Fixpoint mapM {A B : Type} (f : A -> result B) (l : list A) : result (list B) :=
  match l with
  | [] => Ok []
  | a :: l' =>
      b <- f a ;;
      r <- mapM f l' ;;
      Ok (b :: r)
  end.

(** [typeof v === 'number'] *)
Definition typeof_number (v : value) : bool :=
  match v with
  | VNum _ => true
  | _ => false
  end.

(** The global [isNaN] on a number. *)
Definition isNaN (f : float) : bool := negb (f =? f).

(** ToBoolean on a number: [0], [-0] and [NaN] are falsy. *)
Definition truthy (f : float) : bool := negb (isNaN f || (f =? 0)).

(** [Math.max] and [Math.min] on two numbers: [NaN] is contagious and
    [+0] is larger than [-0]. *)
Definition Math_max (a b : float) : float :=
  if isNaN a || isNaN b then nan
  else if a <? b then b
  else if b <? a then a
  else if get_sign a then b else a.

Definition Math_min (a b : float) : float :=
  if isNaN a || isNaN b then nan
  else if a <? b then a
  else if b <? a then b
  else if get_sign a then a else b.

Definition Math_PI : float := 3.141592653589793.

(** ** The part of three.js the viewer calls

    three.js is a dependency, not code of the repository; these are its
    [Vector3], [Line3] and [MathUtils.clamp] as the library defines them,
    with the operations in the library's order of evaluation. *)
Module THREE.

Record Vector3 : Type := mkVector3 { x : float; y : float; z : float }.

Definition subVectors (a b : Vector3) : Vector3 :=
  mkVector3 (x a - x b) (y a - y b) (z a - z b).

Definition dot (a b : Vector3) : float :=
  x a * x b + y a * y b + z a * z b.

Definition multiplyScalar (a : Vector3) (s : float) : Vector3 :=
  mkVector3 (x a * s) (y a * s) (z a * s).

Definition add (a b : Vector3) : Vector3 :=
  mkVector3 (x a + x b) (y a + y b) (z a + z b).

Definition distanceToSquared (a b : Vector3) : float :=
  let dx := x a - x b in
  let dy := y a - y b in
  let dz := z a - z b in
  dx * dx + dy * dy + dz * dz.

Definition distanceTo (a b : Vector3) : float :=
  PrimFloat.sqrt (distanceToSquared a b).

(** [MathUtils.clamp(value, min, max)] *)
Definition clamp (v lo hi : float) : float := Math_max lo (Math_min hi v).

Record Line3 : Type := mkLine3 { start : Vector3; end_ : Vector3 }.

Definition closestPointToPointParameter
    (line : Line3) (point : Vector3) (clampToLine : bool) : float :=
  let startP := subVectors point (start line) in
  let startEnd := subVectors (end_ line) (start line) in
  let startEnd2 := dot startEnd startEnd in
  let startEnd_startP := dot startEnd startP in
  let t := startEnd_startP / startEnd2 in
  if clampToLine then clamp t 0 1 else t.

Definition closestPointToPoint
    (line : Line3) (point : Vector3) (clampToLine : bool) : Vector3 :=
  let t := closestPointToPointParameter line point clampToLine in
  add (multiplyScalar (subVectors (end_ line) (start line)) t) (start line).

(** A [Path]: the point of [moveTo] followed by those of the [lineTo]s,
    closed by [closePath].  A [Shape] is an outline with its holes. *)
Definition Path : Type := list (float * float).

Record Shape : Type := mkShape { outline : Path; holes : list Path }.

End THREE.

(** ** The plan data ([BlueprintAnalysis])

    The records below follow the interfaces [Point2D], [Wall], [Door],
    [Room] and [BlueprintAnalysis] of the source (they stand after
    [LandingPage] in [components/Viewer3D.tsx]), which declare every field
    but [suggestedColor] and [colorDescription] as required.  A plan is
    [JSON.parse(text) as BlueprintAnalysis] of the answer of the analysis
    service, which nothing checks against the interfaces, and the response
    schema in [services/geminiService.ts] marks no field as required: the
    components guard the fields at run time ([!wall.start],
    [!door.position], [typeof p.x === 'number'], [wall.thickness ? ...],
    [door.width || 6], [data.walls?.map]).  So the records give a guarded
    field the values its guard tells apart: an object field may be missing
    ([None]); a coordinate may hold any value, since the code inspects it
    with [typeof]; [thickness], [width], [rotation] and [areaSqFt] are
    numbers when present.  The entries of the three arrays are objects
    here; the arrays with [null] entries are [ParsedAnalysis] below. *)
Module Point2D.
(** [interface Point2D], a point [{x, y}] of plan space. *)
Record t : Type := mk { x : value; y : value }.
End Point2D.

Module Wall.
(** [interface Wall], [{id, start, end, thickness, type}]. *)
Record t : Type := mk {
  id : option string;
  start : option Point2D.t;
  end_ : option Point2D.t;
  thickness : option float;
  type : option string
}.
End Wall.

Module Door.
(** [interface Door], [{id, position, width, rotation}]. *)
Record t : Type := mk {
  id : option string;
  position : option Point2D.t;
  width : option float;
  rotation : option float
}.
End Door.

Module Room.
(** [interface Room], [{id, name, polygon, areaSqFt, center,
    suggestedColor?, colorDescription?}]; a polygon may hold [null]
    entries, which the filter of the floor builder expects. *)
Record t : Type := mk {
  id : option string;
  name : string;
  areaSqFt : option float;
  center : option Point2D.t;
  polygon : option (list (option Point2D.t));
  suggestedColor : option string;
  colorDescription : option string
}.
End Room.

(** The geometric part of [interface BlueprintAnalysis]; the cost,
    renovation, safety and summary fields are not read by the viewer. *)
Record BlueprintAnalysis : Type := mkData {
  walls : option (list Wall.t);
  doors : option (list Door.t);
  rooms : option (list Room.t)
}.

(** ** Helper functions *)

(** Map 0-100 (2D grid) to -25..25 (3D world). *)
Definition mapCoord (val : value) : float :=
  match val with
  | VNum f => if isNaN f then 0 else (f - 50) / 2
  | _ => 0
  end.

(** [new THREE.Vector3(mapCoord(p.x), 0, mapCoord(p.y))] *)
Definition toWorld (p : Point2D.t) : THREE.Vector3 :=
  THREE.mkVector3 (mapCoord (Point2D.x p)) 0 (mapCoord (Point2D.y p)).

(** [x || d] on an optional number. *)
Definition or_default (x : option float) (d : float) : float :=
  match x with
  | Some f => if truthy f then f else d
  | None => d
  end.

(** ** The scene graph that the components return *)

Inductive Geometry : Type :=
| boxGeometry (w h d : float)
| RoundedBox (w h d radius : float)
| sphereGeometry (radius : float).

Inductive Object3D : Type :=
| mesh (position : THREE.Vector3) (geometry : Geometry) (color : string)
| group (position : THREE.Vector3) (children : list Object3D).

Record ExtrudeSettings : Type := mkExtrude {
  depth : float;
  bevelEnabled : bool;
  bevelThickness : option float;
  bevelSize : option float;
  bevelSegments : option float;
  steps : option float
}.

Record Material : Type := mkMaterial {
  color : string;
  opacity : float;
  transparent : bool;
  emissive : string;
  emissiveIntensity : float
}.

(** The [group] of a wall.  Its rotation is [[0, -Math.atan2(dz, dx), 0]];
    the primitive floats have no [atan2], so the solid records the two
    arguments [dz] and [dx] of the angle instead of its value. *)
Record WallSolid : Type := mkWallSolid {
  wall_position : THREE.Vector3;
  wall_angle_dz : float;
  wall_angle_dx : float;
  wall_mesh_position : THREE.Vector3;
  wall_shape : THREE.Shape;
  wall_extrude : ExtrudeSettings;
  wall_color : string
}.

Record DoorAssembly : Type := mkDoorAssembly {
  door_position : THREE.Vector3;
  door_rotation_y : float;
  door_children : list Object3D
}.

(** The [group] of a room: the extruded floor mesh and the [Html] label.
    [room_onClick] is the id that a click on either reports. *)
Record RoomGroup : Type := mkRoomGroup {
  room_shape : THREE.Shape;
  room_extrude : ExtrudeSettings;
  room_mesh_position : THREE.Vector3;
  room_material : Material;
  room_label_position : THREE.Vector3;
  room_label_highlighted : bool;
  room_label_name : string;
  room_onClick : option string
}.

Record Scene : Type := mkScene {
  scene_walls : list (option WallSolid);
  scene_doors : list (option DoorAssembly);
  scene_rooms : list (option RoomGroup)
}.

(** ** 1. WALL SEGMENT *)

(** A door of [doors] kept for a wall: [{...door, distFromStart}]. *)
Record HostedDoor : Type := mkHosted {
  hosted_door : Door.t;
  distFromStart : float
}.

(** [door.position.x] and [door.position.y] read inside the sweep, with no
    check that [door.position] exists. *)
Definition readDoorPos (door : Door.t) : result THREE.Vector3 :=
  match Door.position door with
  | Some p => Ok (toWorld p)
  | None => Throw TypeError
  end.

(** The three quantities the sweep computes for one door and one wall. *)
Definition distToLine (start end_ doorPos : THREE.Vector3) : float :=
  let closest := THREE.closestPointToPoint (THREE.mkLine3 start end_) doorPos true in
  THREE.distanceTo closest doorPos.

Definition distAlong (start end_ doorPos : THREE.Vector3) : float :=
  let closest := THREE.closestPointToPoint (THREE.mkLine3 start end_) doorPos true in
  THREE.distanceTo closest start.

(** The body of the callback of [doors.filter], once [doorPos] is built. *)
Definition hostsAt (start end_ : THREE.Vector3) (length : float)
    (doorPos : THREE.Vector3) : bool :=
  if 1.0 <? distToLine start end_ doorPos then false
  else
    let distFromStart := distAlong start end_ doorPos in
    (0.5 <? distFromStart) && (distFromStart <? length - 0.5).

Definition onWall (start end_ : THREE.Vector3) (length : float) (door : Door.t)
  : result bool :=
  doorPos <- readDoorPos door ;;
  Ok (hostsAt start end_ length doorPos).

(** The callback of the [map] that follows. *)
Definition withDist (start : THREE.Vector3) (door : Door.t) : result HostedDoor :=
  doorPos <- readDoorPos door ;;
  Ok (mkHosted door (THREE.distanceTo start doorPos)).

Definition relevantDoors (doors : option (list Door.t))
    (start end_ : THREE.Vector3) (length : float) : result (list HostedDoor) :=
  match doors with
  | None => Ok []
  | Some doors =>
      kept <- filterM (onWall start end_ length) doors ;;
      mapM (withDist start) kept
  end.

(** The hole of one kept door, in the elevation of the wall. *)
Definition doorHole (door : HostedDoor) : THREE.Path :=
  let doorW := or_default (Door.width (hosted_door door)) 6 * 0.5 in
  let doorH := 2.2 in
  let doorLeft := distFromStart door - doorW / 2 in
  [ (doorLeft, 0); (doorLeft + doorW, 0);
    (doorLeft + doorW, doorH); (doorLeft, doorH) ].

Definition wallShape (length height : float) (relevantDoors : list HostedDoor)
  : THREE.Shape :=
  THREE.mkShape
    [ (0, 0); (length, 0); (length, height); (0, height) ]
    (map doorHole relevantDoors).

(** [wall.thickness ? Math.min(Math.max(wall.thickness / 5, 0.3), 1.0) : 0.5] *)
Definition wallThickness (wall : Wall.t) : float :=
  match Wall.thickness wall with
  | Some t => if truthy t then Math_min (Math_max (t / 5) 0.3) 1.0 else 0.5
  | None => 0.5
  end.

(** The guard at the top of [WallSegment]: both end points exist and their
    four coordinates have type number. *)
Definition wallEnds (wall : Wall.t) : option (Point2D.t * Point2D.t) :=
  match Wall.start wall, Wall.end_ wall with
  | Some s, Some e =>
      if typeof_number (Point2D.x s) && typeof_number (Point2D.y s)
         && typeof_number (Point2D.x e) && typeof_number (Point2D.y e)
      then Some (s, e) else None
  | _, _ => None
  end.

Definition WallSegment (wall : Wall.t) (doors : option (list Door.t))
  : result (option WallSolid) :=
  match wallEnds wall with
  | None => Ok None
  | Some (s, e) =>
      let start := toWorld s in
      let end_ := toWorld e in
      if THREE.distanceToSquared start end_ <? 0.01 then Ok None
      else
        let length := THREE.distanceTo start end_ in
        let height := 3.0 in
        let thickness := wallThickness wall in
        let dx := THREE.x end_ - THREE.x start in
        let dz := THREE.z end_ - THREE.z start in
        relevantDoors <- relevantDoors doors start end_ length ;;
        let shape := wallShape length height relevantDoors in
        let extrudeSettings :=
          mkExtrude thickness true (Some 0.02) (Some 0.02) (Some 2) (Some 1) in
        Ok (Some (mkWallSolid start dz dx
                    (THREE.mkVector3 0 0 (- thickness / 2))
                    shape extrudeSettings "#334155"))
  end.

(** ** 2. DOOR MESH *)

(** The guard at the top of [DoorMesh]. *)
Definition doorAt (door : Door.t) : option Point2D.t :=
  match Door.position door with
  | Some p =>
      if typeof_number (Point2D.x p) && typeof_number (Point2D.y p)
      then Some p else None
  | None => None
  end.

Definition DoorMesh (door : Door.t) : option DoorAssembly :=
  match doorAt door with
  | None => None
  | Some p =>
      let openingWidth := or_default (Door.width door) 6 * 0.5 in
      let height := 2.2 in
      let leafThickness := 0.1 in
      let frameDepth := 0.6 in
      let frameWidth := 0.1 in
      let casingWidth := 0.15 in
      let casingDepth := 0.05 in
      let rotationRad := or_default (Door.rotation door) 0 * (Math_PI / 180) in
      let V := THREE.mkVector3 in
      let casing (side : float) :=
        group (V 0 0 (side * (frameDepth / 2 + casingDepth / 2)))
          [ mesh (V 0 (height + frameWidth + casingWidth / 2 - 0.05) 0)
              (boxGeometry (openingWidth + frameWidth * 2 + casingWidth * 2)
                 casingWidth casingDepth) "#475569";
            mesh (V (- openingWidth / 2 - frameWidth - casingWidth / 2 + 0.05)
                    (height / 2) 0)
              (boxGeometry casingWidth height casingDepth) "#475569";
            mesh (V (openingWidth / 2 + frameWidth + casingWidth / 2 - 0.05)
                    (height / 2) 0)
              (boxGeometry casingWidth height casingDepth) "#475569" ] in
      Some (mkDoorAssembly (toWorld p) (- rotationRad)
        ([ mesh (V (- openingWidth / 2 - frameWidth / 2) (height / 2) 0)
             (boxGeometry frameWidth height frameDepth) "#334155";
           mesh (V (openingWidth / 2 + frameWidth / 2) (height / 2) 0)
             (boxGeometry frameWidth height frameDepth) "#334155";
           mesh (V 0 (height + frameWidth / 2) 0)
             (boxGeometry (openingWidth + frameWidth * 2) frameWidth frameDepth)
             "#334155" ]
         ++ map casing [-1; 1]
         ++ [ group (V 0 (height / 2) 0)
                [ mesh (V 0 0 0)
                    (RoundedBox openingWidth (height - 0.02) leafThickness 0.02)
                    "#854d0e";
                  group (V (openingWidth * 0.35) 0 (leafThickness / 2 + 0.04))
                    [ mesh (V 0 0 0) (sphereGeometry 0.06) "#fbbf24";
                      mesh (V 0 0 (- leafThickness - 0.08))
                        (sphereGeometry 0.06) "#fbbf24" ] ] ]))
  end.

(** ** 3. ROOM FLOOR *)

(** The callback of [room.polygon?.filter]. *)
Definition validPoint (p : option Point2D.t) : bool :=
  match p with
  | Some (Point2D.mk (VNum px) (VNum py)) => negb (isNaN px) && negb (isNaN py)
  | _ => false
  end.

Definition validPoints (room : Room.t) : list (option Point2D.t) :=
  match Room.polygon room with
  | Some polygon => filter validPoint polygon
  | None => []
  end.

(** [(mapCoord(validPoints[i].x), -mapCoord(validPoints[i].y))]: reading a
    coordinate of an element that is not an object would raise. *)
Definition floorVertex (p : option Point2D.t) : result (float * float) :=
  match p with
  | Some q => Ok (mapCoord (Point2D.x q), - mapCoord (Point2D.y q))
  | None => Throw TypeError
  end.

Definition roomShape (room : Room.t) : result (option THREE.Shape) :=
  let validPoints := validPoints room in
  if Nat.ltb (List.length validPoints) 3 then Ok None
  else
    pts <- mapM floorVertex validPoints ;;
    Ok (Some (THREE.mkShape pts [])).

(** The guard on [room.center], which follows the one on the shape. *)
Definition roomCenter (room : Room.t) : option Point2D.t :=
  match Room.center room with
  | Some c =>
      if typeof_number (Point2D.x c) && typeof_number (Point2D.y c)
      then Some c else None
  | None => None
  end.

Definition floorMaterial (isHighlighted : bool) : Material :=
  mkMaterial
    (if isHighlighted then "#06b6d4" else "#1e293b")
    (if isHighlighted then 0.9 else 1)
    isHighlighted
    (if isHighlighted then "#06b6d4" else "#000000")
    (if isHighlighted then 0.3 else 0).

(** The label shows [room.name] and [Math.round(room.areaSqFt)]; the
    rounded area takes no part in any decision and is left out of the
    rendered room. *)
Definition RoomFloor (room : Room.t) (isHighlighted : bool)
  : result (option RoomGroup) :=
  shape <- roomShape room ;;
  match shape with
  | None => Ok None
  | Some shape =>
      match roomCenter room with
      | None => Ok None
      | Some c =>
          Ok (Some (mkRoomGroup shape
                      (mkExtrude 0.1 false None None None None)
                      (THREE.mkVector3 0 (-0.1) 0)
                      (floorMaterial isHighlighted)
                      (THREE.mkVector3 (mapCoord (Point2D.x c)) 2.5
                                       (mapCoord (Point2D.y c)))
                      isHighlighted
                      (Room.name room)
                      (Room.id room)))
      end
  end.

(** ** Main viewer component *)

(** [data.walls?.map(...)]: nothing is rendered for a missing list. *)
Definition orEmpty {A : Type} (l : option (list A)) : list A :=
  match l with
  | Some l => l
  | None => []
  end.

(** [highlightedRoomId === room.id], with [null] for no selection and
    [undefined] for a room without id, which differ.  An id that holds
    [null], and the selection [undefined] that a click on a room without
    id leaves, have no value of their own here and compare as different
    too, where the source finds [null === null] and
    [undefined === undefined]: the comparison is that of the source
    whenever one of its sides is a string. *)
Definition strictEq (highlightedRoomId id : option string) : bool :=
  match highlightedRoomId, id with
  | Some a, Some b => String.eqb a b
  | _, _ => false
  end.

(** The scene of a plan whose arrays hold objects: the components of the
    walls, doors and rooms, in the order of the arrays.  An exception
    raised while a component renders aborts the render of the whole scene:
    no error boundary surrounds [SceneContent].  The [key]s of the
    elements, which [SceneContent] reads from [wall.id], [door.id] and
    [room.id], do not reach the scene; the read itself fails on an entry
    that is [null], see [SceneContentParsed]. *)
Definition SceneContent (data : BlueprintAnalysis) (highlightedRoomId : option string)
  : result Scene :=
  ws <- mapM (fun wall => WallSegment wall (doors data)) (orEmpty (walls data)) ;;
  let ds := map DoorMesh (orEmpty (doors data)) in
  rs <- mapM (fun room => RoomFloor room (strictEq highlightedRoomId (Room.id room)))
          (orEmpty (rooms data)) ;;
  Ok (mkScene ws ds rs).

(** ** The scene of a plan as parsed *)

(** The arrays of a plan as [JSON.parse] delivers them: an entry of an
    array may be [null]. *)
Record ParsedAnalysis : Type := mkParsed {
  parsed_walls : option (list (option Wall.t));
  parsed_doors : option (list (option Door.t));
  parsed_rooms : option (list (option Room.t))
}.

(** [wall.id], [door.id] and [room.id], which the callbacks of the three
    [map]s of [SceneContent] read for the [key] of each element (and for
    [isHighlighted]): reading a property of [null] raises a TypeError. *)
Definition readId {A : Type} (entry : option A) : result A :=
  match entry with
  | Some object => Ok object
  | None => Throw TypeError
  end.

(** [data.walls?.map((wall, i) => <WallSegment key={wall.id || ...} .../>)]:
    the elements of an array, made before any of their components
    renders. *)
Definition elements {A : Type} (array : option (list (option A)))
  : result (option (list A)) :=
  match array with
  | Some entries => objects <- mapM readId entries ;; Ok (Some objects)
  | None => Ok None
  end.

(** [SceneContent] on the arrays as parsed.  The three [map]s run while
    [SceneContent] itself renders, walls first, then doors, then rooms; the
    components of their elements render after it.  So a [null] entry in
    any of the arrays aborts the render before a wall, door or room is
    built, and without one the scene is that of the objects. *)
Definition SceneContentParsed (data : ParsedAnalysis) (highlightedRoomId : option string)
  : result Scene :=
  ws <- elements (parsed_walls data) ;;
  ds <- elements (parsed_doors data) ;;
  rs <- elements (parsed_rooms data) ;;
  SceneContent (mkData ws ds rs) highlightedRoomId.

(** A plan whose arrays hold objects, as parsed. *)
Definition parsed (data : BlueprintAnalysis) : ParsedAnalysis :=
  mkParsed (option_map (map Some) (walls data))
           (option_map (map Some) (doors data))
           (option_map (map Some) (rooms data)).

(** The number of components that rendered something. *)
Definition rendered {A : Type} (l : list (option A)) : nat :=
  List.length (filter (fun o => match o with Some _ => true | None => false end) l).

(** ** The sample of the application ([SAMPLE_DATA]) *)

Definition pt (px py : float) : option Point2D.t :=
  Some (Point2D.mk (VNum px) (VNum py)).

Definition SAMPLE_DATA : BlueprintAnalysis :=
  mkData
    (Some
      [ Wall.mk (Some "w1") (pt 10 10) (pt 90 10) (Some 2) (Some "brick");
        Wall.mk (Some "w2") (pt 90 10) (pt 90 70) (Some 2) (Some "brick");
        Wall.mk (Some "w3") (pt 90 70) (pt 10 70) (Some 2) (Some "brick");
        Wall.mk (Some "w4") (pt 10 70) (pt 10 10) (Some 2) (Some "brick");
        Wall.mk (Some "w5") (pt 50 10) (pt 50 70) (Some 1) (Some "drywall");
        Wall.mk (Some "w6") (pt 50 40) (pt 90 40) (Some 1) (Some "drywall") ])
    (Some
      [ Door.mk (Some "d1") (pt 50 60) (Some 8) (Some 0);
        Door.mk (Some "d2") (pt 70 40) (Some 6) (Some 90);
        Door.mk (Some "d3") (pt 25 70) (Some 10) (Some 0) ])
    (Some
      [ Room.mk (Some "r1") "Open Office" (Some 400) (pt 30 40)
          (Some [pt 10 10; pt 50 10; pt 50 70; pt 10 70])
          (Some "#e0f2fe") (Some "Productivity Blue");
        Room.mk (Some "r2") "Meeting Room" (Some 250) (pt 70 25)
          (Some [pt 50 10; pt 90 10; pt 90 40; pt 50 40])
          (Some "#fce7f3") (Some "Calm Rose");
        Room.mk (Some "r3") "Lounge" (Some 250) (pt 70 55)
          (Some [pt 50 40; pt 90 40; pt 90 70; pt 50 70])
          (Some "#dcfce7") (Some "Relaxed Green") ]).

(** ** The sweep seen from one door

    The doors a wall keeps, as a predicate on the door alone, and what the
    [map] makes of a kept door.  The sweep is characterised by them in
    [relevantDoors_eq]. *)

Definition positioned (door : Door.t) : bool :=
  match Door.position door with
  | Some _ => true
  | None => false
  end.

Definition keeps (start end_ : THREE.Vector3) (length : float) (door : Door.t) : bool :=
  match Door.position door with
  | Some p => hostsAt start end_ length (toWorld p)
  | None => false
  end.

Definition hosted (start : THREE.Vector3) (door : Door.t) : HostedDoor :=
  match Door.position door with
  | Some p => mkHosted door (THREE.distanceTo start (toWorld p))
  | None => mkHosted door nan
  end.

(** The solid of a wall that passed both guards, from the doors it keeps. *)

Definition solidOf (wall : Wall.t) (s e : Point2D.t) (kept : list HostedDoor) : WallSolid :=
  let start := toWorld s in
  let end_ := toWorld e in
  let thickness := wallThickness wall in
  mkWallSolid start (THREE.z end_ - THREE.z start) (THREE.x end_ - THREE.x start)
    (THREE.mkVector3 0 0 (- thickness / 2))
    (wallShape (THREE.distanceTo start end_) 3.0 kept)
    (mkExtrude thickness true (Some 0.02) (Some 0.02) (Some 2) (Some 1))
    "#334155".

(** ** Notions of the specification, and plans used as examples *)

(** The first wall of the sample with another thickness. *)
Definition wall_of_thickness (t : option float) : Wall.t :=
  Wall.mk (Some "w1") (pt 10 10) (pt 90 10) t (Some "brick").

(** The squared distance between [start] and [end] as the plan gives them,
    in plan units: the quantity the specification compares with [0.01]. *)
Definition planDistanceSquared (s e : Point2D.t) : float :=
  match Point2D.x s, Point2D.y s, Point2D.x e, Point2D.y e with
  | VNum sx, VNum sy, VNum ex, VNum ey =>
      (sx - ex) * (sx - ex) + (sy - ey) * (sy - ey)
  | _, _, _, _ => nan
  end.

(** A wall of plan length [0.125 * sqrt 2], about [0.177]. *)
Definition short_wall : Wall.t :=
  Wall.mk (Some "w1") (pt 10 10) (pt 10.125 10.125) (Some 2) (Some "brick").

(** [door.width ?? 6], the default of the specification. *)
Definition or_nullish (x : option float) (d : float) : float :=
  match x with
  | Some f => f
  | None => d
  end.

(** A rectangle standing on the floor line, from its left edge. *)
Definition floorRect (left w h : float) : THREE.Path :=
  [ (left, 0); (left + w, 0); (left + w, h); (left, h) ].

(** The hole of the specification: centred at [d], of width
    [(door.width ?? 6) * 0.5] and height [2.2], on the floor line. *)
Definition claimedHole (d : float) (door : Door.t) : THREE.Path :=
  let w := or_nullish (Door.width door) 6 * 0.5 in
  floorRect (d - w / 2) w 2.2.

(** The top wall of the sample and two doors for it: one on its line with a
    width of [0], one of the default width half a world unit off its line. *)
Definition top_wall : Wall.t :=
  Wall.mk (Some "w1") (pt 10 10) (pt 90 10) (Some 2) (Some "brick").

Definition zero_width_door : Door.t :=
  Door.mk (Some "d1") (pt 50 10) (Some 0) (Some 0).

Definition off_line_door : Door.t :=
  Door.mk (Some "d1") (pt 50 11) None (Some 0).

(** The two partitions of the sample, which meet in a T at [(50, 40)], and
    a door of the horizontal one next to the junction. *)
Definition divider : Wall.t :=
  Wall.mk (Some "w5") (pt 50 10) (pt 50 70) (Some 1) (Some "drywall").

Definition partition : Wall.t :=
  Wall.mk (Some "w6") (pt 50 40) (pt 90 40) (Some 1) (Some "drywall").

Definition junction_door : Door.t :=
  Door.mk (Some "d1") (pt 51.5 40) (Some 1) (Some 0).

(** Whether a wall cuts a hole for a door: the wall passes its guards and
    the door passes the test of the sweep. *)
Definition hostedBy (wall : Wall.t) (door : Door.t) : bool :=
  match wallEnds wall with
  | Some (s, e) =>
      let start := toWorld s in
      let end_ := toWorld e in
      negb (THREE.distanceToSquared start end_ <? 0.01)
      && keeps start end_ (THREE.distanceTo start end_) door
  | None => false
  end.

(** The sample with the position of its second door missing. *)
Definition unplaced_door : Door.t :=
  Door.mk (Some "d2") None (Some 6) (Some 90).

Definition unplaced_plan : BlueprintAnalysis :=
  mkData
    (walls SAMPLE_DATA)
    (Some
      [ Door.mk (Some "d1") (pt 50 60) (Some 8) (Some 0);
        unplaced_door;
        Door.mk (Some "d3") (pt 25 70) (Some 10) (Some 0) ])
    (rooms SAMPLE_DATA).

(** The holes of the walls of a scene, wall by wall. *)
Definition holesOf (solid : option WallSolid) : list THREE.Path :=
  match solid with
  | Some solid => THREE.holes (wall_shape solid)
  | None => []
  end.

(** The first room of the sample with a NaN in its third corner, and with
    its center missing. *)
Definition two_corner_room : Room.t :=
  Room.mk (Some "r1") "Open Office" (Some 400) (pt 30 40)
    (Some [pt 10 10; pt 50 10; pt nan 70])
    (Some "#e0f2fe") (Some "Productivity Blue").

Definition uncentered_room : Room.t :=
  Room.mk (Some "r1") "Open Office" (Some 400) None
    (Some [pt 10 10; pt 50 10; pt 50 70; pt 10 70])
    (Some "#e0f2fe") (Some "Productivity Blue").

Definition text_centered_room : Room.t :=
  Room.mk (Some "r1") "Open Office" (Some 400)
    (Some (Point2D.mk (VStr "30") (VNum 40)))
    (Some [pt 10 10; pt 50 10; pt 50 70; pt 10 70])
    (Some "#e0f2fe") (Some "Productivity Blue").

(** Two renderings of a room that agree on all but what follows the
    highlight, which is the material of the slab and the style of the
    label. *)
Definition sameRoomGeometry (a b : option RoomGroup) : Prop :=
  match a, b with
  | Some a, Some b =>
      room_shape a = room_shape b /\
      room_extrude a = room_extrude b /\
      room_mesh_position a = room_mesh_position b /\
      room_label_position a = room_label_position b /\
      room_label_name a = room_label_name b /\
      room_onClick a = room_onClick b
  | None, None => True
  | _, _ => False
  end.

(** The part of a rendered room that follows the highlight. *)
Definition roomLook (isHighlighted : bool) (r : option RoomGroup) : Prop :=
  match r with
  | Some g =>
      room_material g = floorMaterial isHighlighted /\
      room_label_highlighted g = isHighlighted
  | None => True
  end.

(** Walls and a door with NaN among their coordinates. *)
Definition nan_wall : Wall.t :=
  Wall.mk (Some "w1") (pt nan nan) (pt nan nan) (Some 2) (Some "brick").

Definition half_nan_wall : Wall.t :=
  Wall.mk (Some "w1") (pt nan 10) (pt 90 10) (Some 2) (Some "brick").

Definition end_nan_wall : Wall.t :=
  Wall.mk (Some "w1") (pt 10 10) (pt 90 nan) (Some 2) (Some "brick").

Definition nan_door : Door.t :=
  Door.mk (Some "d1") (pt nan nan) (Some 8) (Some 0).

(** ** Reading a scene graph *)

(** The geometries of an object and of all that it groups. *)
Fixpoint geometries (o : Object3D) : list Geometry :=
  match o with
  | mesh _ g _ => [g]
  | group _ children => flat_map geometries children
  end.

Definition assemblyGeometries (a : DoorAssembly) : list Geometry :=
  flat_map geometries (door_children a).

(** A wall that passes both guards of [WallSegment]. *)
Definition buildable (wall : Wall.t) : bool :=
  match wallEnds wall with
  | Some (s, e) => negb (THREE.distanceToSquared (toWorld s) (toWorld e) <? 0.01)
  | None => false
  end.

(** A plan whose only wall is [null], and the sample with a [null] among
    its rooms. *)
Definition null_wall_plan : ParsedAnalysis :=
  mkParsed (Some [None]) (Some []) (Some []).

Definition null_room_plan : ParsedAnalysis :=
  mkParsed (parsed_walls (parsed SAMPLE_DATA)) (parsed_doors (parsed SAMPLE_DATA))
           (Some [None]).

(** A door whose position holds text instead of numbers, and a wall
    through the middle of the plan, which maps to the world origin. *)
Definition text_door : Door.t :=
  Door.mk (Some "d1") (Some (Point2D.mk (VStr "50") (VStr "50"))) (Some 8) (Some 0).

Definition middle_wall : Wall.t :=
  Wall.mk (Some "w1") (pt 10 50) (pt 90 50) (Some 2) (Some "brick").

(** A door in the middle of the first room of the sample, far from every
    wall. *)
Definition far_door : Door.t :=
  Door.mk (Some "d1") (pt 30 40) (Some 8) (Some 0).

(** A vector, and a point of a path, none of whose coordinates is NaN. *)
Definition numericVector (v : THREE.Vector3) : Prop :=
  isNaN (THREE.x v) = false /\ isNaN (THREE.y v) = false /\ isNaN (THREE.z v) = false.

Definition numericPoint (p : float * float) : Prop :=
  isNaN (fst p) = false /\ isNaN (snd p) = false.

(** The rooms of a scene that are rendered highlighted. *)
Definition isLit (r : option RoomGroup) : bool :=
  match r with
  | Some g => room_label_highlighted g
  | None => false
  end.

Definition highlighted (scene : Scene) : list (option RoomGroup) :=
  filter isLit (scene_rooms scene).

(** The door assemblies of the sample written out, frame, casings, leaf
    and knobs with their places and sizes: [d1], [d2] and [d3] stand at
    world [(0, 5)], [(10, -5)] and [(-12.5, 10)] with openings of [4], [3]
    and [5], [d2] turned by [-(90 * (Math.PI / 180))]. *)
Definition sample_door_assemblies : list (option DoorAssembly) :=
  [Some
     {|
       door_position := {| THREE.x := 0; THREE.y := 0; THREE.z := 5 |};
       door_rotation_y := -0;
       door_children :=
         [mesh
            {|
              THREE.x := -2.05; THREE.y := 1.1; THREE.z := 0
            |} (boxGeometry 0.1 2.2 0.6)
            "#334155";
          mesh
            {|
              THREE.x := 2.05; THREE.y := 1.1; THREE.z := 0
            |} (boxGeometry 0.1 2.2 0.6)
            "#334155";
          mesh {| THREE.x := 0; THREE.y := 2.25; THREE.z := 0 |}
            (boxGeometry 4.2 0.1 0.6)
            "#334155";
          group {| THREE.x := 0; THREE.y := 0; THREE.z := -0.325 |}
            [mesh {| THREE.x := 0; THREE.y := 2.3250000000000006; THREE.z := 0 |}
               (boxGeometry 4.5 0.15 0.05) "#475569";
             mesh
               {|
                 THREE.x := -2.1250000000000004;
                 THREE.y := 1.1;
                 THREE.z := 0
               |}
               (boxGeometry 0.15 2.2 0.05)
               "#475569";
             mesh
               {|
                 THREE.x := 2.1250000000000004;
                 THREE.y := 1.1;
                 THREE.z := 0
               |}
               (boxGeometry 0.15 2.2 0.05)
               "#475569"];
          group {| THREE.x := 0; THREE.y := 0; THREE.z := 0.325 |}
            [mesh {| THREE.x := 0; THREE.y := 2.3250000000000006; THREE.z := 0 |}
               (boxGeometry 4.5 0.15 0.05) "#475569";
             mesh
               {|
                 THREE.x := -2.1250000000000004;
                 THREE.y := 1.1;
                 THREE.z := 0
               |}
               (boxGeometry 0.15 2.2 0.05)
               "#475569";
             mesh
               {|
                 THREE.x := 2.1250000000000004;
                 THREE.y := 1.1;
                 THREE.z := 0
               |}
               (boxGeometry 0.15 2.2 0.05)
               "#475569"];
          group {| THREE.x := 0; THREE.y := 1.1; THREE.z := 0 |}
            [mesh {| THREE.x := 0; THREE.y := 0; THREE.z := 0 |}
               (RoundedBox 4 2.18 0.1 0.02) "#854d0e";
             group
               {|
                 THREE.x := 1.4;
                 THREE.y := 0;
                 THREE.z := 0.09
               |}
               [mesh {| THREE.x := 0; THREE.y := 0; THREE.z := 0 |}
                  (sphereGeometry 0.06) "#fbbf24";
                mesh {| THREE.x := 0; THREE.y := 0; THREE.z := -0.18 |}
                  (sphereGeometry 0.06) "#fbbf24"]]]
     |};
   Some
     {|
       door_position := {| THREE.x := 10; THREE.y := 0; THREE.z := -5 |};
       door_rotation_y := -1.5707963267948966;
       door_children :=
         [mesh {| THREE.x := -1.55; THREE.y := 1.1; THREE.z := 0 |}
            (boxGeometry 0.1 2.2 0.6)
            "#334155";
          mesh {| THREE.x := 1.55; THREE.y := 1.1; THREE.z := 0 |}
            (boxGeometry 0.1 2.2 0.6)
            "#334155";
          mesh {| THREE.x := 0; THREE.y := 2.25; THREE.z := 0 |}
            (boxGeometry 3.2 0.1 0.6)
            "#334155";
          group {| THREE.x := 0; THREE.y := 0; THREE.z := -0.325 |}
            [mesh {| THREE.x := 0; THREE.y := 2.3250000000000006; THREE.z := 0 |}
               (boxGeometry 3.5 0.15 0.05) "#475569";
             mesh {| THREE.x := -1.625; THREE.y := 1.1; THREE.z := 0 |}
               (boxGeometry 0.15 2.2 0.05)
               "#475569";
             mesh {| THREE.x := 1.625; THREE.y := 1.1; THREE.z := 0 |}
               (boxGeometry 0.15 2.2 0.05)
               "#475569"];
          group {| THREE.x := 0; THREE.y := 0; THREE.z := 0.325 |}
            [mesh {| THREE.x := 0; THREE.y := 2.3250000000000006; THREE.z := 0 |}
               (boxGeometry 3.5 0.15 0.05) "#475569";
             mesh {| THREE.x := -1.625; THREE.y := 1.1; THREE.z := 0 |}
               (boxGeometry 0.15 2.2 0.05)
               "#475569";
             mesh {| THREE.x := 1.625; THREE.y := 1.1; THREE.z := 0 |}
               (boxGeometry 0.15 2.2 0.05)
               "#475569"];
          group {| THREE.x := 0; THREE.y := 1.1; THREE.z := 0 |}
            [mesh {| THREE.x := 0; THREE.y := 0; THREE.z := 0 |}
               (RoundedBox 3 2.18 0.1 0.02) "#854d0e";
             group
               {|
                 THREE.x := 1.0499999999999998;
                 THREE.y := 0;
                 THREE.z := 0.09
               |}
               [mesh {| THREE.x := 0; THREE.y := 0; THREE.z := 0 |}
                  (sphereGeometry 0.06) "#fbbf24";
                mesh {| THREE.x := 0; THREE.y := 0; THREE.z := -0.18 |}
                  (sphereGeometry 0.06) "#fbbf24"]]]
     |};
   Some
     {|
       door_position := {| THREE.x := -12.5; THREE.y := 0; THREE.z := 10 |};
       door_rotation_y := -0;
       door_children :=
         [mesh
            {|
              THREE.x := -2.55; THREE.y := 1.1; THREE.z := 0
            |} (boxGeometry 0.1 2.2 0.6)
            "#334155";
          mesh
            {|
              THREE.x := 2.55; THREE.y := 1.1; THREE.z := 0
            |} (boxGeometry 0.1 2.2 0.6)
            "#334155";
          mesh {| THREE.x := 0; THREE.y := 2.25; THREE.z := 0 |}
            (boxGeometry 5.2 0.1 0.6)
            "#334155";
          group {| THREE.x := 0; THREE.y := 0; THREE.z := -0.325 |}
            [mesh {| THREE.x := 0; THREE.y := 2.3250000000000006; THREE.z := 0 |}
               (boxGeometry 5.5 0.15 0.05) "#475569";
             mesh
               {|
                 THREE.x := -2.6250000000000004;
                 THREE.y := 1.1;
                 THREE.z := 0
               |}
               (boxGeometry 0.15 2.2 0.05)
               "#475569";
             mesh
               {|
                 THREE.x := 2.6250000000000004;
                 THREE.y := 1.1;
                 THREE.z := 0
               |}
               (boxGeometry 0.15 2.2 0.05)
               "#475569"];
          group {| THREE.x := 0; THREE.y := 0; THREE.z := 0.325 |}
            [mesh {| THREE.x := 0; THREE.y := 2.3250000000000006; THREE.z := 0 |}
               (boxGeometry 5.5 0.15 0.05) "#475569";
             mesh
               {|
                 THREE.x := -2.6250000000000004;
                 THREE.y := 1.1;
                 THREE.z := 0
               |}
               (boxGeometry 0.15 2.2 0.05)
               "#475569";
             mesh
               {|
                 THREE.x := 2.6250000000000004;
                 THREE.y := 1.1;
                 THREE.z := 0
               |}
               (boxGeometry 0.15 2.2 0.05)
               "#475569"];
          group {| THREE.x := 0; THREE.y := 1.1; THREE.z := 0 |}
            [mesh {| THREE.x := 0; THREE.y := 0; THREE.z := 0 |}
               (RoundedBox 5 2.18 0.1 0.02) "#854d0e";
             group {| THREE.x := 1.75; THREE.y := 0; THREE.z := 0.09 |}
               [mesh {| THREE.x := 0; THREE.y := 0; THREE.z := 0 |}
                  (sphereGeometry 0.06) "#fbbf24";
                mesh {| THREE.x := 0; THREE.y := 0; THREE.z := -0.18 |}
                  (sphereGeometry 0.06) "#fbbf24"]]]
     |}].

(** Two numbers of the float specification that are opposite, or both
    zero: what [a - b] and [b - a] are to each other. *)
Definition mirrored (u v : spec_float) : Prop :=
  v = SFopp u \/ (exists s1 s2, u = S754_zero s1 /\ v = S754_zero s2).

(** * The application around the viewer ([App.tsx], [Viewer2D.tsx])

    ** The state of [App] and its handlers

    The state variables of the component, the two [useRef] flags of the
    resize handles and, as [pending], the asynchronous continuation that
    is under way: [handleFileUpload] awaits the reading of the file and
    then the analysis, [handleSampleLoad] a timer.  Each handler, and each
    resumption after an [await], is one event; [document.body.style.cursor]
    is left out. *)

Inductive AppStep : Type := LANDING | UPLOAD | PROCESSING | DASHBOARD.

Inductive Pending : Type := Idle | Reading | Analyzing | SampleDelay.

Record AppState : Type := mkApp {
  step : AppStep;
  imageUrl : option string;
  analysisData : option BlueprintAnalysis;
  highlightedRoomId : option string;
  errorMsg : option string;
  reportWidth : float;
  viewSplitRatio : float;
  isResizingReport : bool;
  isResizingView : bool;
  pending : Pending
}.

Definition initialApp : AppState :=
  mkApp LANDING None None None None 350 0.5 false false Idle.

Inductive Event : Type :=
| Start                                  (* [onStart] of the landing page *)
| BackToHome                             (* the back button of the upload screen *)
| FileChosen                             (* [handleFileUpload] up to its first [await] *)
| FileRead (base64 : string)             (* the file was read or converted *)
| FileFailed (message : option string)   (* reading or conversion was rejected *)
| Analyzed (data : BlueprintAnalysis)    (* [analyzeBlueprint] resolved *)
| AnalysisFailed                         (* [analyzeBlueprint] was rejected *)
| SampleLoad                             (* [handleSampleLoad] *)
| SampleReady                            (* its timer fired *)
| Home                                   (* [onHome] of the report panel *)
| NewUpload                              (* [onUpload] of the report panel *)
| RoomPicked (id : option string)        (* [setHighlightedRoomId(room.id)] of a viewer *)
| ResetView                              (* [handleReset] of the 3D viewer *)
| GrabReport                             (* [startResizingReport] *)
| GrabView                               (* [startResizingView] *)
| MouseUp                                (* [stopResizing] *)
| MouseMove (clientX rectLeft rectWidth : float) (* [handleMouseMove], with the container's rect *).

(** [x || d] on an optional string. *)
Definition orText (x : option string) (d : string) : string :=
  match x with
  | Some "" => d
  | Some s => s
  | None => d
  end.

Definition setStep (st : AppState) (s : AppStep) : AppState :=
  mkApp s (imageUrl st) (analysisData st) (highlightedRoomId st) (errorMsg st)
    (reportWidth st) (viewSplitRatio st) (isResizingReport st) (isResizingView st)
    (pending st).

(** The two callbacks that leave the dashboard. *)
Definition leaveDashboard (st : AppState) (s : AppStep) : AppState :=
  mkApp s None None None (errorMsg st)
    (reportWidth st) (viewSplitRatio st) (isResizingReport st) (isResizingView st)
    (pending st).

Definition handleMouseMove (st : AppState) (clientX rectLeft rectWidth : float) : AppState :=
  let st1 :=
    if isResizingReport st then
      let newWidth := Math_max 250 (Math_min 500 clientX) in
      mkApp (step st) (imageUrl st) (analysisData st) (highlightedRoomId st)
        (errorMsg st) newWidth (viewSplitRatio st) (isResizingReport st)
        (isResizingView st) (pending st)
    else st in
  (* [viewContainerRef.current] is set while the dashboard is mounted *)
  if isResizingView st1 && match step st1 with DASHBOARD => true | _ => false end then
    let relativeX := clientX - rectLeft in
    let newRatio := Math_max 0.2 (Math_min 0.8 (relativeX / rectWidth)) in
    mkApp (step st1) (imageUrl st1) (analysisData st1) (highlightedRoomId st1)
      (errorMsg st1) (reportWidth st1) newRatio (isResizingReport st1)
      (isResizingView st1) (pending st1)
  else st1.

(** One event.  A button acts only on the screen that shows it, and a
    continuation only resumes the call that is under way; the listeners of
    the mouse are attached on every screen. *)
Definition handle (st : AppState) (ev : Event) : AppState :=
  match ev, step st, pending st with
  | Start, LANDING, _ => setStep st UPLOAD
  | BackToHome, UPLOAD, _ => setStep st LANDING
  | FileChosen, UPLOAD, _ =>
      mkApp PROCESSING (imageUrl st) (analysisData st) (highlightedRoomId st) None
        (reportWidth st) (viewSplitRatio st) (isResizingReport st) (isResizingView st)
        Reading
  | FileRead base64, _, Reading =>
      mkApp (step st) (Some base64) (analysisData st) (highlightedRoomId st)
        (errorMsg st) (reportWidth st) (viewSplitRatio st) (isResizingReport st)
        (isResizingView st) Analyzing
  | FileFailed message, _, Reading =>
      mkApp UPLOAD (imageUrl st) (analysisData st) (highlightedRoomId st)
        (Some (orText message "Error reading file."))
        (reportWidth st) (viewSplitRatio st) (isResizingReport st) (isResizingView st)
        Idle
  | Analyzed data, _, Analyzing =>
      mkApp DASHBOARD (imageUrl st) (Some data) (highlightedRoomId st) (errorMsg st)
        (reportWidth st) (viewSplitRatio st) (isResizingReport st) (isResizingView st)
        Idle
  | AnalysisFailed, _, Analyzing =>
      mkApp UPLOAD (imageUrl st) (analysisData st) (highlightedRoomId st)
        (Some "Failed to analyze blueprint. Please try a clearer file.")
        (reportWidth st) (viewSplitRatio st) (isResizingReport st) (isResizingView st)
        Idle
  | SampleLoad, UPLOAD, _ =>
      mkApp PROCESSING (imageUrl st) (analysisData st) (highlightedRoomId st) None
        (reportWidth st) (viewSplitRatio st) (isResizingReport st) (isResizingView st)
        SampleDelay
  | SampleReady, _, SampleDelay =>
      mkApp DASHBOARD None (Some SAMPLE_DATA) (highlightedRoomId st) (errorMsg st)
        (reportWidth st) (viewSplitRatio st) (isResizingReport st) (isResizingView st)
        Idle
  | Home, DASHBOARD, _ => leaveDashboard st LANDING
  | NewUpload, DASHBOARD, _ => leaveDashboard st UPLOAD
  | RoomPicked id, DASHBOARD, _ =>
      mkApp (step st) (imageUrl st) (analysisData st) id (errorMsg st)
        (reportWidth st) (viewSplitRatio st) (isResizingReport st) (isResizingView st)
        (pending st)
  | ResetView, DASHBOARD, _ =>
      mkApp (step st) (imageUrl st) (analysisData st) None (errorMsg st)
        (reportWidth st) (viewSplitRatio st) (isResizingReport st) (isResizingView st)
        (pending st)
  | GrabReport, DASHBOARD, _ =>
      mkApp (step st) (imageUrl st) (analysisData st) (highlightedRoomId st)
        (errorMsg st) (reportWidth st) (viewSplitRatio st) true (isResizingView st)
        (pending st)
  | GrabView, DASHBOARD, _ =>
      mkApp (step st) (imageUrl st) (analysisData st) (highlightedRoomId st)
        (errorMsg st) (reportWidth st) (viewSplitRatio st) (isResizingReport st) true
        (pending st)
  | MouseUp, _, _ =>
      mkApp (step st) (imageUrl st) (analysisData st) (highlightedRoomId st)
        (errorMsg st) (reportWidth st) (viewSplitRatio st) false false (pending st)
  | MouseMove clientX rectLeft rectWidth, _, _ => handleMouseMove st clientX rectLeft rectWidth
  | _, _, _ => st
  end.

Definition run (events : list Event) : AppState :=
  fold_left handle events initialApp.

(** A mouse move whose numbers are numbers: [clientX] is not NaN and
    neither is the quotient [(clientX - rectLeft) / rectWidth]. *)
Definition numericMove (ev : Event) : Prop :=
  match ev with
  | MouseMove clientX rectLeft rectWidth =>
      isNaN clientX = false /\ isNaN ((clientX - rectLeft) / rectWidth) = false
  | _ => True
  end.

(** ** The banner of the report panel ([AnalysisPanel])

    [highlightedRoomId && (... data.rooms?.find(r => r.id ===
    highlightedRoomId)?.name || 'Unknown Room')]: nothing is shown without
    a selection, the empty string being none. *)
Definition selectedName (data : BlueprintAnalysis) (highlightedRoomId : option string)
  : option string :=
  match highlightedRoomId with
  | None | Some "" => None
  | Some _ =>
      Some (orText
              (option_map Room.name
                 (find (fun r => strictEq highlightedRoomId (Room.id r))
                    (orEmpty (rooms data))))
              "Unknown Room")
  end.

(** ** The toolbar of the 3D viewer ([Viewer3D])

    The two state variables of the component.  [handleReset] and
    [saveView] write neither: the first acts on the orbit controls and on
    the selection of [App], the second is an empty placeholder. *)
Record ViewState : Type := mkView {
  cameraPosition : float * float * float;
  history : list (float * float * float)
}.

Definition initialView : ViewState := mkView (0, 80, 40) [].

Inductive ViewEvent : Type := Reset | Undo | SaveView.

Definition handleUndo (v : ViewState) : ViewState :=
  match rev (history v) with
  | prev :: _ => mkView prev (removelast (history v))
  | [] => v
  end.

Definition handleView (v : ViewState) (ev : ViewEvent) : ViewState :=
  match ev with
  | Undo => handleUndo v
  | Reset | SaveView => v
  end.

(** ** The room overlays of the 2D viewer ([Viewer2D]) *)

(** The [polygon] of the overlay.  Its [points] attribute is the text
    [x,y x,y ...] of the points kept by the filter; the model keeps the
    points themselves, the text being empty exactly when no point is kept.
    The label, shown for the highlighted room only, carries the center it
    is placed from (at [center.x - 10], [center.y - 5]) and the name. *)
Record Overlay : Type := mkOverlay {
  overlay_points : list (float * float);
  overlay_fill : string;
  overlay_stroke : string;
  overlay_label : option (Point2D.t * string);
  overlay_highlighted : bool;
  overlay_onClick : option string
}.

(** The filter of the 2D viewer: [p && typeof p.x === 'number' && typeof
    p.y === 'number'], with no test for NaN. *)
Definition numberPoint (p : option Point2D.t) : list (float * float) :=
  match p with
  | Some (Point2D.mk (VNum px) (VNum py)) => [(px, py)]
  | _ => []
  end.

Definition roomOverlay (room : Room.t) (highlightedRoomId : option string)
  : option Overlay :=
  match Room.polygon room, Room.center room with
  | Some (p :: polygon), Some center =>
      match flat_map numberPoint (p :: polygon) with
      | [] => None
      | points =>
          let isHighlighted := strictEq highlightedRoomId (Room.id room) in
          Some (mkOverlay points
                  (if isHighlighted then "#06b6d4" else "transparent")
                  (if isHighlighted then "#22d3ee" else "transparent")
                  (if isHighlighted then Some (center, Room.name room) else None)
                  isHighlighted
                  (Room.id room))
      end
  | _, _ => None
  end.

Definition Viewer2D (data : BlueprintAnalysis) (highlightedRoomId : option string)
  : list (option Overlay) :=
  map (fun room => roomOverlay room highlightedRoomId) (orEmpty (rooms data)).

(** What the handlers keep: the dashboard has its data, the other screens
    have neither data nor selection, and a continuation is under way only
    on the processing screen. *)
Definition coherent (st : AppState) : Prop :=
  (step st = DASHBOARD -> analysisData st <> None) /\
  (step st <> DASHBOARD -> analysisData st = None /\ highlightedRoomId st = None) /\
  (pending st <> Idle -> step st = PROCESSING).

(** The bounds that the resize handlers keep. *)
Definition sized (st : AppState) : Prop :=
  (250 <=? reportWidth st) = true /\ (reportWidth st <=? 500) = true /\
  (0.2 <=? viewSplitRatio st) = true /\ (viewSplitRatio st <=? 0.8) = true.

(** ** The decoder of the voice report ([decodeAudioData] in [App.tsx])

    The PCM bytes of the synthesized speech are viewed as 16-bit integers,
    separated into channels and scaled to floating-point samples.  The
    function is asynchronous in name only: it awaits nothing. *)

(** The two exceptions that can leave the decoder. *)
Inductive thrown : Type := RangeError | NotSupportedError.

(** One element of the view: two bytes in the byte order of the platform,
    little-endian on the platforms browsers run on, as a signed integer. *)
Definition int16 (lo hi : byte) : Z :=
  let u := (Z.of_N (Byte.to_N lo) + 256 * Z.of_N (Byte.to_N hi))%Z in
  if (u <? 32768)%Z then u else (u - 65536)%Z.

(** [new Int16Array(data.buffer)], for the [Uint8Array] that [decode]
    allocates: a [RangeError] when the byte length is odd. *)
Fixpoint Int16Array (buffer : list byte) : thrown + list Z :=
  match buffer with
  | [] => inr []
  | [_] => inl RangeError
  | lo :: hi :: rest =>
      match Int16Array rest with
      | inr values => inr (int16 lo hi :: values)
      | inl e => inl e
      end
  end.

(** An element of the view as a JavaScript number. *)
Definition toNumber (k : Z) : float :=
  if (k <? 0)%Z then - of_uint63 (Uint63.of_Z (- k)) else of_uint63 (Uint63.of_Z k).

(** [Math.fround], the rounding of a write into a [Float32Array]: the
    nearest binary32 number, ties to even. *)
Definition fround (f : float) : float :=
  match Prim2SF f with
  | S754_finite s m e => SF2Prim (binary_round 24 128 s m e)
  | _ => f
  end.

(** [ctx.createBuffer(numberOfChannels, length, sampleRate)] of the Web
    Audio API, for a sample rate that the context supports (the only call
    passes [24000]): a [NotSupportedError] for no channel, more than 32
    channels or no frame, and silent channels otherwise.  [length] is the
    frame count after its conversion to an integer, which drops the
    fraction. *)
Definition createBuffer (numberOfChannels length : nat) : thrown + list (list float) :=
  if (numberOfChannels =? 0)%nat || (32 <? numberOfChannels)%nat || (length =? 0)%nat
  then inl NotSupportedError
  else inr (repeat (repeat 0 length) numberOfChannels).

(** [channelData[i] = v]: a write past the end of a typed array is
    ignored. *)
Fixpoint store (channelData : list float) (i : nat) (v : float) : list float :=
  match channelData, i with
  | [] , _ => []
  | _ :: rest, O => fround v :: rest
  | x :: rest, S i => x :: store rest i v
  end.

(** [dataInt16[k]] in an arithmetic expression: [undefined], read past the
    end, becomes NaN. *)
Definition element (dataInt16 : list Z) (k : nat) : float :=
  match nth_error dataInt16 k with
  | Some v => toNumber v
  | None => nan
  end.

(** The inner loop, [for (let i = 0; i < frameCount; i++)], which runs
    [steps] times. *)
Definition fillChannel (dataInt16 : list Z) (numChannels steps channel : nat)
    (channelData : list float) : list float :=
  fold_left
    (fun channelData i =>
       store channelData i (element dataInt16 (i * numChannels + channel) / 32768.0))
    (seq 0 steps) channelData.

(** [frameCount] is the quotient [dataInt16.length / numChannels] as a
    number: the buffer gets its integer part as length, and the loops run
    for every [i] below it, that is once more when it has a fraction. *)
Definition decodeAudioData (data : list byte) (numChannels : nat)
  : thrown + list (list float) :=
  match Int16Array data with
  | inl e => inl e
  | inr dataInt16 =>
      let n := List.length dataInt16 in
      match createBuffer numChannels (n / numChannels) with
      | inl e => inl e
      | inr buffer =>
          let steps := ((n + numChannels - 1) / numChannels)%nat in
          inr (map (fun '(channel, channelData) =>
                      fillChannel dataInt16 numChannels steps channel channelData)
                 (combine (seq 0 numChannels) buffer))
      end
  end.

(** The integers from [k], [fuel] of them, and the test made on each
    16-bit integer in [samples_exact]. *)
Fixpoint range (fuel : nat) (k : Z) : list Z :=
  match fuel with
  | O => []
  | S fuel => k :: range fuel (k + 1)
  end.

Definition sampleOk (k : Z) : bool :=
  let v := toNumber k / 32768 in
  (-1 <=? v) && (v <? 1) && PrimFloat.Leibniz.eqb (fround v) v.

(** * Properties *)

(** ** Evaluation helpers *)

(** Two floats that a comparison tells apart are different. *)
Lemma ltb_neq (a b : float) : (a <? b) = true -> (b <? b) = false -> a <> b.
Proof.
  intros Hlt Hirr Heq. rewrite Heq in Hlt. congruence.
Qed.

Lemma forallb_filter {A : Type} (p q : A -> bool) (l : list A) :
  forallb p l = true -> forallb p (filter q l) = true.
Proof.
  induction l as [|a l IH]; simpl; [reflexivity|].
  intros H. apply andb_true_iff in H as [Ha Hl].
  destruct (q a); simpl; [rewrite Ha|]; auto.
Qed.

(** ** The sweep of a wall over the doors *)

Section Sweep.

Variables (start end_ : THREE.Vector3) (length : float).

Lemma filterM_onWall_positioned (doors : list Door.t) :
  forallb positioned doors = true ->
  filterM (onWall start end_ length) doors = Ok (filter (keeps start end_ length) doors).
Proof.
  induction doors as [|d ds IH]; simpl; intros H; [reflexivity|].
  apply andb_true_iff in H as [Hd Hds].
  rewrite (IH Hds).
  unfold onWall, keeps, readDoorPos. unfold positioned in Hd.
  destruct (Door.position d) as [p|]; [|discriminate].
  reflexivity.
Qed.

Lemma filterM_onWall_missing (doors : list Door.t) :
  forallb positioned doors = false ->
  filterM (onWall start end_ length) doors = Throw TypeError.
Proof.
  induction doors as [|d ds IH]; simpl; intros H; [discriminate|].
  unfold onWall at 1, readDoorPos. unfold positioned at 1 in H.
  destruct (Door.position d) as [p|]; simpl in *; [|reflexivity].
  rewrite (IH H). reflexivity.
Qed.

Lemma mapM_withDist_positioned (doors : list Door.t) :
  forallb positioned doors = true ->
  mapM (withDist start) doors = Ok (map (hosted start) doors).
Proof.
  induction doors as [|d ds IH]; simpl; intros H; [reflexivity|].
  apply andb_true_iff in H as [Hd Hds].
  rewrite (IH Hds).
  unfold withDist, hosted, readDoorPos. unfold positioned in Hd.
  destruct (Door.position d) as [p|]; [|discriminate].
  reflexivity.
Qed.

(** The sweep raises exactly when some door of the list has no position;
    otherwise it keeps, in order, the doors that satisfy [keeps]. *)
Lemma relevantDoors_eq (doors : list Door.t) :
  relevantDoors (Some doors) start end_ length =
  if forallb positioned doors
  then Ok (map (hosted start) (filter (keeps start end_ length) doors))
  else Throw TypeError.
Proof.
  unfold relevantDoors.
  destruct (forallb positioned doors) eqn:H.
  - rewrite (filterM_onWall_positioned _ H). simpl.
    apply mapM_withDist_positioned, forallb_filter, H.
  - rewrite (filterM_onWall_missing _ H). reflexivity.
Qed.

End Sweep.

(** ** The wall builder as one equation *)

Lemma WallSegment_guard (wall : Wall.t) (doors : option (list Door.t)) :
  wallEnds wall = None -> WallSegment wall doors = Ok None.
Proof.
  intros H. unfold WallSegment. rewrite H. reflexivity.
Qed.

Lemma WallSegment_degenerate (wall : Wall.t) (doors : option (list Door.t)) s e :
  wallEnds wall = Some (s, e) ->
  (THREE.distanceToSquared (toWorld s) (toWorld e) <? 0.01) = true ->
  WallSegment wall doors = Ok None.
Proof.
  intros H D. unfold WallSegment. rewrite H, D. reflexivity.
Qed.

Lemma WallSegment_eq (wall : Wall.t) (doors : list Door.t) s e :
  wallEnds wall = Some (s, e) ->
  (THREE.distanceToSquared (toWorld s) (toWorld e) <? 0.01) = false ->
  WallSegment wall (Some doors) =
  if forallb positioned doors
  then Ok (Some (solidOf wall s e
                   (map (hosted (toWorld s))
                      (filter (keeps (toWorld s) (toWorld e)
                                 (THREE.distanceTo (toWorld s) (toWorld e))) doors))))
  else Throw TypeError.
Proof.
  intros H D. unfold WallSegment. rewrite H, D, relevantDoors_eq.
  destruct (forallb positioned doors); reflexivity.
Qed.

Lemma WallSegment_no_doors (wall : Wall.t) s e :
  wallEnds wall = Some (s, e) ->
  (THREE.distanceToSquared (toWorld s) (toWorld e) <? 0.01) = false ->
  WallSegment wall None = Ok (Some (solidOf wall s e [])).
Proof.
  intros H D. unfold WallSegment. rewrite H, D. reflexivity.
Qed.

Lemma WallSegment_solid (wall : Wall.t) (doors : option (list Door.t)) s e :
  wallEnds wall = Some (s, e) ->
  (THREE.distanceToSquared (toWorld s) (toWorld e) <? 0.01) = false ->
  forallb positioned (orEmpty doors) = true ->
  exists kept, WallSegment wall doors = Ok (Some (solidOf wall s e kept)).
Proof.
  intros H D Hpos. destruct doors as [doors|]; simpl in Hpos.
  - rewrite (WallSegment_eq _ _ _ _ H D), Hpos. eexists. reflexivity.
  - rewrite (WallSegment_no_doors _ _ _ H D). eexists. reflexivity.
Qed.

(** A wall that passes both guards is never answered with [null]. *)
Lemma WallSegment_not_null (wall : Wall.t) (doors : option (list Door.t)) s e :
  wallEnds wall = Some (s, e) ->
  (THREE.distanceToSquared (toWorld s) (toWorld e) <? 0.01) = false ->
  WallSegment wall doors <> Ok None.
Proof.
  intros H D. destruct doors as [doors|].
  - rewrite (WallSegment_eq _ _ _ _ H D). destruct (forallb positioned doors); discriminate.
  - rewrite (WallSegment_no_doors _ _ _ H D). discriminate.
Qed.

(** The depth of the extrusion is the thickness computed from the wall. *)
Lemma WallSegment_depth (wall : Wall.t) (doors : option (list Door.t)) solid :
  WallSegment wall doors = Ok (Some solid) ->
  depth (wall_extrude solid) = wallThickness wall.
Proof.
  unfold WallSegment.
  destruct (wallEnds wall) as [[s e]|]; [|discriminate].
  destruct (_ <? 0.01); [discriminate|].
  destruct (relevantDoors _ _ _ _) as [kept|err]; simpl; [|discriminate].
  intros H. injection H as <-. reflexivity.
Qed.

(** ** Coordinate mapper *)

(** C7: the coordinate mapper sends every number [v] that is not NaN to
    [(v - 50) / 2], and answers [0] -- a number that is not NaN, with no
    exception on the way, [mapCoord] being a total function -- for NaN and
    for every value that is not a number; so [map(NaN) = 0],
    [map(undefined) = 0], [map(50) = 0], [map(0) = -25], [map(100) = 25]. *)
Theorem mapCoord_spec :
  (forall v : float, isNaN v = false -> mapCoord (VNum v) = (v - 50) / 2) /\
  (forall v : float, isNaN v = true ->
     mapCoord (VNum v) = 0 /\ isNaN (mapCoord (VNum v)) = false) /\
  (forall val : value, typeof_number val = false ->
     mapCoord val = 0 /\ isNaN (mapCoord val) = false) /\
  mapCoord (VNum nan) = 0 /\
  mapCoord VUndefined = 0 /\
  mapCoord (VNum 50) = 0 /\
  mapCoord (VNum 0) = -25 /\
  mapCoord (VNum 100) = 25.
Proof.
  repeat split; try (vm_compute; reflexivity).
  - intros v H. unfold mapCoord. rewrite H. reflexivity.
  - unfold mapCoord. rewrite H. reflexivity.
  - unfold mapCoord. rewrite H. reflexivity.
  - destruct val; try reflexivity; discriminate.
  - destruct val; try reflexivity; discriminate.
Qed.

Lemma mapCoord_spec_witness :
  mapCoord (VNum 10) = (10 - 50) / 2 /\
  mapCoord (VNum nan) = 0 /\
  mapCoord (VStr "ten") = 0.
Proof.
  destruct mapCoord_spec as (Hnum & Hnan & Hother & _).
  split; [apply Hnum; reflexivity|].
  split; [apply (Hnan nan); reflexivity | apply (Hother (VStr "ten")); reflexivity].
Defined.

(** ** Wall thickness *)

(** C2, as the code has it: the world thickness is
    [Math.min(Math.max(thickness / 5, 0.3), 1.0)] when [thickness] is present
    and truthy, and [0.5] when it is absent, zero or NaN: the test is
    [wall.thickness ? ... : 0.5], which takes a thickness of [0] for a
    missing one.  So a thickness of [10] gives [1.0] and a thickness of [0]
    gives [0.5]; the extrusion of the wall has that depth. *)
Theorem wallThickness_spec :
  (forall wall t, Wall.thickness wall = Some t -> truthy t = true ->
     wallThickness wall = Math_min (Math_max (t / 5) 0.3) 1.0) /\
  (forall wall t, Wall.thickness wall = Some t -> truthy t = false ->
     wallThickness wall = 0.5) /\
  (forall wall, Wall.thickness wall = None -> wallThickness wall = 0.5) /\
  (forall wall doors solid, WallSegment wall doors = Ok (Some solid) ->
     depth (wall_extrude solid) = wallThickness wall) /\
  wallThickness (wall_of_thickness (Some 10)) = 1.0 /\
  wallThickness (wall_of_thickness (Some 0)) = 0.5.
Proof.
  repeat split; try (vm_compute; reflexivity).
  - intros wall t Ht Htr. unfold wallThickness. rewrite Ht, Htr. reflexivity.
  - intros wall t Ht Htr. unfold wallThickness. rewrite Ht, Htr. reflexivity.
  - intros wall Ht. unfold wallThickness. rewrite Ht. reflexivity.
  - intros wall doors solid. apply WallSegment_depth.
Qed.

Lemma wallThickness_spec_witness :
  wallThickness (wall_of_thickness (Some 2)) = Math_min (Math_max (2 / 5) 0.3) 1.0 /\
  wallThickness (wall_of_thickness (Some nan)) = 0.5 /\
  wallThickness (wall_of_thickness None) = 0.5 /\
  depth (wall_extrude (solidOf (wall_of_thickness (Some 2))
                         (Point2D.mk (VNum 10) (VNum 10))
                         (Point2D.mk (VNum 90) (VNum 10)) [])) =
  wallThickness (wall_of_thickness (Some 2)).
Proof.
  destruct wallThickness_spec as (Hclamp & Hfalsy & Habsent & Hdepth & _).
  split; [apply (Hclamp _ 2); reflexivity|].
  split; [apply (Hfalsy _ nan); reflexivity|].
  split; [apply Habsent; reflexivity|].
  apply (Hdepth _ None). vm_compute. reflexivity.
Defined.

(** C2 as the specification states it fails: a wall whose thickness is
    present and [0] is extruded by [0.5], not by the clamped floor [0.3]. *)
Lemma thickness_zero_is_default :
  exists solid,
    WallSegment (wall_of_thickness (Some 0)) None = Ok (Some solid) /\
    depth (wall_extrude solid) = 0.5 /\
    depth (wall_extrude solid) <> 0.3.
Proof.
  eexists. split; [vm_compute; reflexivity|]. split; [reflexivity|].
  simpl. intros H. symmetry in H. revert H.
  apply ltb_neq; vm_compute; reflexivity.
Qed.

(** ** Degenerate walls *)

(** C5, as the code has it: the test for a degenerate wall is made on the
    end points mapped to world space.  A wall whose mapped end points have
    a squared distance below [0.01] (world units, which are half plan
    units) yields no geometry; a wall that passes the guard on its fields
    and whose mapped end points have a squared distance not below [0.01]
    is never answered with [null]. *)
Theorem degenerate_wall_spec :
  forall (wall : Wall.t) (doors : option (list Door.t)) (s e : Point2D.t),
    wallEnds wall = Some (s, e) ->
    ((THREE.distanceToSquared (toWorld s) (toWorld e) <? 0.01) = true ->
       WallSegment wall doors = Ok None) /\
    ((THREE.distanceToSquared (toWorld s) (toWorld e) <? 0.01) = false ->
       WallSegment wall doors <> Ok None).
Proof.
  intros wall doors s e H. split; intros D.
  - eapply WallSegment_degenerate; eassumption.
  - eapply WallSegment_not_null; eassumption.
Qed.

Lemma degenerate_wall_spec_witness :
  WallSegment short_wall None = Ok None /\
  WallSegment top_wall None <> Ok None.
Proof.
  split.
  - apply (degenerate_wall_spec short_wall None
             (Point2D.mk (VNum 10) (VNum 10))
             (Point2D.mk (VNum 10.125) (VNum 10.125)));
      vm_compute; reflexivity.
  - apply (degenerate_wall_spec top_wall None
             (Point2D.mk (VNum 10) (VNum 10))
             (Point2D.mk (VNum 90) (VNum 10)));
      vm_compute; reflexivity.
Defined.

(** C5 as the specification states it fails: the end points of
    [short_wall] have a squared distance of [0.03125] plan units, which is
    not below [0.01], and the wall is dropped all the same, its mapped end
    points having a squared distance of [0.0078125]. *)
Lemma short_wall_dropped :
  exists s e,
    wallEnds short_wall = Some (s, e) /\
    planDistanceSquared s e = 0.03125 /\
    (0.01 <=? planDistanceSquared s e) = true /\
    THREE.distanceToSquared (toWorld s) (toWorld e) = 0.0078125 /\
    WallSegment short_wall None = Ok None.
Proof.
  do 2 eexists. split; [vm_compute; reflexivity|].
  repeat split; vm_compute; reflexivity.
Qed.

(** ** Facts on binary64 numbers

    Comparisons and NaN, from the specification of the primitive floats. *)

Lemma SFcompare_antisym (x y : spec_float) :
  SFcompare y x = option_map CompOpp (SFcompare x y).
Proof.
  destruct x as [sx|sx| |sx mx ex], y as [sy|sy| |sy my ey]; simpl;
    try reflexivity;
    try (destruct sx; reflexivity); try (destruct sy; reflexivity);
    try (destruct sx, sy; reflexivity).
  assert (Hm : Pos.compare_cont Eq my mx = CompOpp (Pos.compare_cont Eq mx my)).
  { rewrite (Pos.compare_cont_antisym mx my Eq). reflexivity. }
  destruct sx, sy; simpl; try reflexivity;
    rewrite (Z.compare_antisym ex ey);
    destruct (ex ?= ey)%Z; simpl; try reflexivity;
    rewrite Hm; destruct (Pos.compare_cont Eq mx my); reflexivity.
Qed.

Lemma SFcompare_refl (x : spec_float) :
  x <> S754_nan -> SFcompare x x = Some Eq.
Proof.
  destruct x as [s|s| |s m e]; simpl; intros H; try reflexivity;
    try (destruct s; reflexivity); [congruence|].
  destruct s; rewrite Z.compare_refl; simpl;
    change (Pos.compare_cont Eq m m) with (Pos.compare m m);
    rewrite Pos.compare_refl; reflexivity.
Qed.

Lemma SFcompare_nan (x y : spec_float) :
  SFcompare x y = None <-> x = S754_nan \/ y = S754_nan.
Proof.
  destruct x as [sx|sx| |sx mx ex], y as [sy|sy| |sy my ey]; simpl;
    split; intros H; try discriminate; auto;
    try (destruct H as [H|H]; discriminate).
Qed.

Lemma isNaN_false (f : float) : isNaN f = false <-> Prim2SF f <> S754_nan.
Proof.
  unfold isNaN. rewrite FloatAxioms.eqb_spec. unfold SFeqb. split.
  - intros H Hn. rewrite Hn in H. discriminate.
  - intros H. rewrite (SFcompare_refl _ H). reflexivity.
Qed.

Lemma isNaN_true (f : float) : isNaN f = true <-> Prim2SF f = S754_nan.
Proof.
  split; intros H.
  - destruct (Prim2SF f) eqn:E; try reflexivity;
      assert (Hf : isNaN f = false) by (apply isNaN_false; rewrite E; discriminate);
      congruence.
  - destruct (isNaN f) eqn:E; [reflexivity|].
    apply isNaN_false in E. contradiction.
Qed.

Lemma ltb_leb (a b : float) : (a <? b) = true -> (a <=? b) = true.
Proof.
  rewrite ltb_spec, leb_spec. unfold SFltb, SFleb.
  destruct (SFcompare (Prim2SF a) (Prim2SF b)) as [[]|]; congruence.
Qed.

Lemma leb_refl (a : float) : isNaN a = false -> (a <=? a) = true.
Proof.
  intros H. apply isNaN_false in H. rewrite leb_spec. unfold SFleb.
  rewrite (SFcompare_refl _ H). reflexivity.
Qed.

Lemma not_ltb_leb (a b : float) :
  isNaN a = false -> isNaN b = false -> (a <? b) = false -> (b <=? a) = true.
Proof.
  intros Ha Hb. apply isNaN_false in Ha. apply isNaN_false in Hb.
  rewrite ltb_spec, leb_spec. unfold SFltb, SFleb.
  rewrite (SFcompare_antisym (Prim2SF a) (Prim2SF b)).
  destruct (SFcompare (Prim2SF a) (Prim2SF b)) as [[]|] eqn:E; simpl; try congruence.
  apply SFcompare_nan in E. tauto.
Qed.

(** Rounding a mantissa that is not negative never gives NaN, so a
    division by, or a subtraction of, a finite number gives NaN only from
    NaN. *)
Lemma shr_1_nonneg mrs : (0 <= shr_m mrs)%Z -> (0 <= shr_m (shr_1 mrs))%Z.
Proof.
  destruct mrs as [m r s]. simpl. intros H.
  destruct m as [|p|p]; simpl; [reflexivity| |].
  - destruct p; simpl; try apply Pos2Z.is_nonneg. reflexivity.
  - exfalso. apply H. reflexivity.
Qed.

Lemma iter_pos_inv {A : Type} (P : A -> Prop) (f : A -> A) :
  (forall x, P x -> P (f x)) -> forall n x, P x -> P (SpecFloat.iter_pos f n x).
Proof.
  intros Hf. induction n as [n IH|n IH|]; simpl; intros x Hx; auto.
Qed.

Lemma shr_nonneg mrs e n : (0 <= shr_m mrs)%Z -> (0 <= shr_m (fst (shr mrs e n)))%Z.
Proof.
  intros H. unfold shr. destruct n; simpl; auto.
  apply (iter_pos_inv (fun r => (0 <= shr_m r)%Z)); auto. apply shr_1_nonneg.
Qed.

Lemma shr_record_of_loc_m m l : shr_m (shr_record_of_loc m l) = m.
Proof. destruct l as [|[]]; reflexivity. Qed.

Lemma shr_fexp_nonneg prec emax m e l :
  (0 <= m)%Z -> (0 <= shr_m (fst (shr_fexp prec emax m e l)))%Z.
Proof.
  intros H. unfold shr_fexp. apply shr_nonneg. rewrite shr_record_of_loc_m. exact H.
Qed.

Lemma round_nearest_even_nonneg m l : (0 <= m)%Z -> (0 <= round_nearest_even m l)%Z.
Proof.
  intros H. unfold round_nearest_even. destruct l as [|[]]; auto.
  - destruct (Z.even m); auto. apply Z.add_nonneg_nonneg; [exact H | discriminate].
  - apply Z.add_nonneg_nonneg; [exact H | discriminate].
Qed.

Lemma binary_round_aux_not_nan prec emax sx mx ex lx :
  (0 <= mx)%Z -> binary_round_aux prec emax sx mx ex lx <> S754_nan.
Proof.
  intros H. unfold binary_round_aux.
  pose proof (shr_fexp_nonneg prec emax mx ex lx H) as H1.
  destruct (shr_fexp prec emax mx ex lx) as [mrs' e']. simpl in H1.
  pose proof (shr_fexp_nonneg prec emax _ e' loc_Exact
                (round_nearest_even_nonneg _ (loc_of_shr_record mrs') H1)) as H2.
  destruct (shr_fexp prec emax (round_nearest_even (shr_m mrs') (loc_of_shr_record mrs')) e' loc_Exact)
    as [mrs'' e'']. simpl in H2.
  destruct (shr_m mrs'') as [|p|p]; try discriminate.
  - destruct (Z.leb e'' (emax - prec)); discriminate.
  - exfalso. apply H2. reflexivity.
Qed.

Lemma binary_normalize_not_nan prec emax m e szero :
  binary_normalize prec emax m e szero <> S754_nan.
Proof.
  unfold binary_normalize, binary_round. destruct m as [|p|p]; [discriminate| |].
  - destruct (shl_align p e _) as [mz ez]. apply binary_round_aux_not_nan. discriminate.
  - destruct (shl_align p e _) as [mz ez]. apply binary_round_aux_not_nan. discriminate.
Qed.

Lemma SFdiv_finite_not_nan prec emax x sy my ey :
  x <> S754_nan -> SFdiv prec emax x (S754_finite sy my ey) <> S754_nan.
Proof.
  intros Hx. destruct x as [sx|sx| |sx mx ex]; simpl; try discriminate; [congruence|].
  unfold SFdiv_core_binary.
  set (m' := match _ with Zpos _ => _ | Z0 => _ | Zneg _ => _ end).
  assert (Hm' : (0 <= m')%Z).
  { subst m'. destruct (_ - _ - _)%Z; try discriminate.
    apply Z.shiftl_nonneg. discriminate. }
  pose proof (Z.div_pos m' (Zpos my) Hm' eq_refl) as Hq.
  unfold Z.div in Hq. destruct (Z.div_eucl m' (Zpos my)) as [q r]. simpl in Hq.
  apply binary_round_aux_not_nan. exact Hq.
Qed.

Lemma SFsub_finite_not_nan prec emax x sy my ey :
  x <> S754_nan -> SFsub prec emax x (S754_finite sy my ey) <> S754_nan.
Proof.
  intros Hx. destruct x as [sx|sx| |sx mx ex]; simpl; try discriminate; [congruence|].
  apply binary_normalize_not_nan.
Qed.

Lemma div_finite_not_nan (x y : float) sy my ey :
  Prim2SF y = S754_finite sy my ey -> isNaN x = false -> isNaN (x / y) = false.
Proof.
  intros Hy Hx. apply isNaN_false. apply isNaN_false in Hx.
  rewrite div_spec, Hy. apply SFdiv_finite_not_nan. exact Hx.
Qed.

Lemma sub_finite_not_nan (x y : float) sy my ey :
  Prim2SF y = S754_finite sy my ey -> isNaN x = false -> isNaN (x - y) = false.
Proof.
  intros Hy Hx. apply isNaN_false. apply isNaN_false in Hx.
  rewrite sub_spec, Hy. apply SFsub_finite_not_nan. exact Hx.
Qed.

Lemma Math_max_spec (a b : float) :
  isNaN a = false -> isNaN b = false ->
  (Math_max a b = a \/ Math_max a b = b) /\
  (a <=? Math_max a b) = true /\ (b <=? Math_max a b) = true.
Proof.
  intros Ha Hb. unfold Math_max. rewrite Ha, Hb. simpl.
  destruct (a <? b) eqn:Hab.
  - split; [right; reflexivity|]. split; [apply ltb_leb, Hab | apply leb_refl, Hb].
  - destruct (b <? a) eqn:Hba.
    + split; [left; reflexivity|]. split; [apply leb_refl, Ha | apply ltb_leb, Hba].
    + pose proof (not_ltb_leb _ _ Ha Hb Hab). pose proof (not_ltb_leb _ _ Hb Ha Hba).
      destruct (get_sign a).
      * split; [right; reflexivity|]. split; [assumption | apply leb_refl, Hb].
      * split; [left; reflexivity|]. split; [apply leb_refl, Ha | assumption].
Qed.

Lemma Math_min_spec (a b : float) :
  isNaN a = false -> isNaN b = false ->
  (Math_min a b = a \/ Math_min a b = b) /\
  (Math_min a b <=? a) = true /\ (Math_min a b <=? b) = true.
Proof.
  intros Ha Hb. unfold Math_min. rewrite Ha, Hb. simpl.
  destruct (a <? b) eqn:Hab.
  - split; [left; reflexivity|]. split; [apply leb_refl, Ha | apply ltb_leb, Hab].
  - destruct (b <? a) eqn:Hba.
    + split; [right; reflexivity|]. split; [apply ltb_leb, Hba | apply leb_refl, Hb].
    + pose proof (not_ltb_leb _ _ Ha Hb Hab). pose proof (not_ltb_leb _ _ Hb Ha Hba).
      destruct (get_sign a).
      * split; [left; reflexivity|]. split; [apply leb_refl, Ha | assumption].
      * split; [right; reflexivity|]. split; [assumption | apply leb_refl, Hb].
Qed.

Lemma Math_max_not_nan (a b : float) :
  isNaN a = false -> isNaN b = false -> isNaN (Math_max a b) = false.
Proof.
  intros Ha Hb. destruct (Math_max_spec a b Ha Hb) as ([-> | ->] & _); assumption.
Qed.

Lemma Math_min_not_nan (a b : float) :
  isNaN a = false -> isNaN b = false -> isNaN (Math_min a b) = false.
Proof.
  intros Ha Hb. destruct (Math_min_spec a b Ha Hb) as ([-> | ->] & _); assumption.
Qed.

(** [Math.min(Math.max(v, lo), hi)] and [Math.max(lo, Math.min(hi, v))] lie
    between [lo] and [hi] when [v] is a number. *)
Lemma min_max_range (v lo hi : float) :
  isNaN v = false -> isNaN lo = false -> isNaN hi = false -> (lo <=? hi) = true ->
  (lo <=? Math_min (Math_max v lo) hi) = true /\
  (Math_min (Math_max v lo) hi <=? hi) = true.
Proof.
  intros Hv Hlo Hhi Hle.
  pose proof (Math_max_not_nan v lo Hv Hlo) as Hm.
  destruct (Math_max_spec v lo Hv Hlo) as (_ & _ & Hlom).
  destruct (Math_min_spec (Math_max v lo) hi Hm Hhi) as (Hcase & _ & Hr).
  split; [|exact Hr]. destruct Hcase as [-> | ->]; assumption.
Qed.

Lemma max_min_range (v lo hi : float) :
  isNaN v = false -> isNaN lo = false -> isNaN hi = false -> (lo <=? hi) = true ->
  (lo <=? Math_max lo (Math_min hi v)) = true /\
  (Math_max lo (Math_min hi v) <=? hi) = true.
Proof.
  intros Hv Hlo Hhi Hle.
  pose proof (Math_min_not_nan hi v Hhi Hv) as Hm.
  destruct (Math_min_spec hi v Hhi Hv) as (_ & Hmhi & _).
  destruct (Math_max_spec lo (Math_min hi v) Hlo Hm) as (Hcase & Hr & _).
  split; [exact Hr|]. destruct Hcase as [-> | ->]; assumption.
Qed.

(** A number and its opposite have the same square, and [x - y] is the
    opposite of [y - x] unless both are zero: so the squared distance does
    not depend on the order of the two points. *)
Lemma binary_round_aux_opp prec emax s m e l :
  binary_round_aux prec emax (negb s) m e l = SFopp (binary_round_aux prec emax s m e l).
Proof.
  unfold binary_round_aux.
  destruct (shr_fexp prec emax m e l) as [mrs' e'].
  destruct (shr_fexp prec emax _ e' loc_Exact) as [mrs'' e''].
  destruct (shr_m mrs'') as [|p|p]; try reflexivity.
  destruct (Z.leb e'' (emax - prec)); reflexivity.
Qed.

Lemma binary_normalize_opp prec emax m e :
  binary_normalize prec emax (- m) e false = SFopp (binary_normalize prec emax m e false) \/
  (binary_normalize prec emax (- m) e false = S754_zero false /\
   binary_normalize prec emax m e false = S754_zero false).
Proof.
  destruct m as [|p|p]; simpl; [right; split; reflexivity| |]; left;
    unfold binary_round; destruct (shl_align p e _) as [mz ez].
  - apply (binary_round_aux_opp prec emax false).
  - rewrite <- (binary_round_aux_opp prec emax true). reflexivity.
Qed.

Lemma SFsub_mirrored prec emax (a b : spec_float) :
  mirrored (SFsub prec emax a b) (SFsub prec emax b a).
Proof.
  unfold mirrored.
  destruct a as [sa|sa| |sa ma ea], b as [sb|sb| |sb mb eb]; simpl;
    try (left; reflexivity);
    try (destruct sa, sb; simpl; (left; reflexivity) || (right; eauto); fail);
    try (destruct sa; left; reflexivity);
    try (destruct sb; left; reflexivity).
  rewrite (Z.min_comm eb ea).
  set (A := cond_Zopp sa (Z.pos (fst (shl_align ma ea (Z.min ea eb))))).
  set (B := cond_Zopp sb (Z.pos (fst (shl_align mb eb (Z.min ea eb))))).
  replace (B - A)%Z with (- (A - B))%Z by lia.
  destruct (binary_normalize_opp prec emax (A - B) (Z.min ea eb)) as [H | [H1 H2]].
  - left. exact H.
  - right. eauto.
Qed.

Lemma SFmul_square_mirrored prec emax (u v : spec_float) :
  mirrored u v -> SFmul prec emax u u = SFmul prec emax v v.
Proof.
  intros [-> | (s1 & s2 & -> & ->)].
  - destruct u as [s|s| |s m e]; simpl; try reflexivity;
      destruct s; reflexivity.
  - simpl. destruct s1, s2; reflexivity.
Qed.

Lemma square_diff_sym (x y : float) : (x - y) * (x - y) = (y - x) * (y - x).
Proof.
  apply Prim2SF_inj. rewrite !mul_spec, !sub_spec.
  apply SFmul_square_mirrored, SFsub_mirrored.
Qed.

Lemma distanceToSquared_sym (a b : THREE.Vector3) :
  THREE.distanceToSquared a b = THREE.distanceToSquared b a.
Proof.
  unfold THREE.distanceToSquared. cbv zeta.
  rewrite (square_diff_sym (THREE.x a)), (square_diff_sym (THREE.y a)),
    (square_diff_sym (THREE.z a)). reflexivity.
Qed.

Lemma distanceTo_sym (a b : THREE.Vector3) :
  THREE.distanceTo a b = THREE.distanceTo b a.
Proof.
  unfold THREE.distanceTo. rewrite distanceToSquared_sym. reflexivity.
Qed.

(** ** Door holes in the profile of a wall *)

Lemma keeps_intro (start end_ : THREE.Vector3) (length : float) (door : Door.t) p :
  Door.position door = Some p ->
  (1.0 <? distToLine start end_ (toWorld p)) = false ->
  (0.5 <? distAlong start end_ (toWorld p)) = true ->
  (distAlong start end_ (toWorld p) <? length - 0.5) = true ->
  keeps start end_ length door = true.
Proof.
  intros Hp Hline Hlo Hhi. unfold keeps, hostsAt.
  rewrite Hp, Hline, Hlo, Hhi. reflexivity.
Qed.

Lemma keeps_elim (start end_ : THREE.Vector3) (length : float) (door : Door.t) :
  keeps start end_ length door = true ->
  exists p,
    Door.position door = Some p /\
    (1.0 <? distToLine start end_ (toWorld p)) = false /\
    (0.5 <? distAlong start end_ (toWorld p)) = true /\
    (distAlong start end_ (toWorld p) <? length - 0.5) = true.
Proof.
  unfold keeps, hostsAt. destruct (Door.position door) as [p|]; [|discriminate].
  destruct (1.0 <? distToLine start end_ (toWorld p)) eqn:Hline; [discriminate|].
  intros H. apply andb_true_iff in H as [Hlo Hhi]. exists p. repeat split; assumption.
Qed.

(** The hole of a kept door is a rectangle on the floor line whose left
    edge is half its width before the distance from the start of the wall
    to the position of the door. *)
Lemma doorHole_hosted (start : THREE.Vector3) (door : Door.t) p :
  Door.position door = Some p ->
  doorHole (hosted start door) =
  floorRect (THREE.distanceTo start (toWorld p) - or_default (Door.width door) 6 * 0.5 / 2)
    (or_default (Door.width door) 6 * 0.5) 2.2.
Proof.
  intros Hp. unfold hosted. rewrite Hp. reflexivity.
Qed.

(** The holes of a wall are those of the doors it keeps, in their order. *)
Lemma WallSegment_holes (wall : Wall.t) (doors : list Door.t) s e solid :
  wallEnds wall = Some (s, e) ->
  WallSegment wall (Some doors) = Ok (Some solid) ->
  THREE.holes (wall_shape solid) =
  map (fun door => doorHole (hosted (toWorld s) door)) (filter (hostedBy wall) doors).
Proof.
  intros H. unfold hostedBy. rewrite H.
  destruct (THREE.distanceToSquared (toWorld s) (toWorld e) <? 0.01) eqn:D.
  - rewrite (WallSegment_degenerate _ _ _ _ H D). discriminate.
  - rewrite (WallSegment_eq _ _ _ _ H D).
    destruct (forallb positioned doors); [|discriminate].
    intros E. injection E as <-. simpl. rewrite map_map. reflexivity.
Qed.




(** The position of the hole along the wall is measured from the start of
    the wall to the door itself, not to the point of the wall closest to
    the door that the sweep tests.  [off_line_door] stands half a world
    unit off the line of [top_wall], opposite the point at distance [20]:
    its hole, of width [3], begins after [20 - 1.5]. *)
Lemma off_line_door_hole :
  let start := THREE.mkVector3 (-20) 0 (-20) in
  let end_ := THREE.mkVector3 20 0 (-20) in
  let doorPos := THREE.mkVector3 0 0 (-19.5) in
  distToLine start end_ doorPos = 0.5 /\
  distAlong start end_ doorPos = 20 /\
  exists solid,
    WallSegment top_wall (Some [off_line_door]) = Ok (Some solid) /\
    THREE.holes (wall_shape solid) =
      [floorRect (PrimFloat.sqrt 400.25 - 1.5) 3 2.2] /\
    (18.5 <? PrimFloat.sqrt 400.25 - 1.5) = true.
Proof.
  cbv zeta. repeat (split; [vm_compute; reflexivity|]).
  eexists. repeat split; vm_compute; reflexivity.
Qed.

(** ** Doors and walls in the scene *)

Lemma mapM_Forall2 {A B : Type} (f : A -> result B) (l : list A) (r : list B) :
  mapM f l = Ok r -> Forall2 (fun a b => f a = Ok b) l r.
Proof.
  revert r. induction l as [|a l IH]; simpl; intros r H.
  - injection H as <-. constructor.
  - destruct (f a) as [b|err] eqn:Ha; simpl in H; [|discriminate].
    destruct (mapM f l) as [r'|err]; simpl in H; [|discriminate].
    injection H as <-. constructor; auto.
Qed.

Lemma mapM_Throw {A B : Type} (f : A -> result B) (l : list A) (a : A) err :
  In a l -> f a = Throw err -> exists err', mapM f l = Throw err'.
Proof.
  induction l as [|b l IH]; simpl; intros Hin Ha; [contradiction|].
  destruct (f b) as [fb|errb] eqn:Hb; simpl; [|eexists; reflexivity].
  destruct Hin as [->|Hin]; [congruence|].
  destruct (IH Hin Ha) as [err' ->]. simpl. eexists. reflexivity.
Qed.

(** The walls of a scene are built one by one, each from the wall and the
    list of doors alone. *)
Lemma SceneContent_walls (data : BlueprintAnalysis) hl scene :
  SceneContent data hl = Ok scene ->
  Forall2 (fun wall solid => WallSegment wall (doors data) = Ok solid)
    (orEmpty (walls data)) (scene_walls scene).
Proof.
  unfold SceneContent. intros H.
  destruct (mapM _ (orEmpty (walls data))) as [ws|err] eqn:Hws; simpl in H; [|discriminate].
  destruct (mapM _ (orEmpty (rooms data))) as [rs|err]; simpl in H; [|discriminate].
  injection H as <-. simpl. apply mapM_Forall2, Hws.
Qed.

(** C4, as the code has it: nothing chooses one wall for a door.  Each
    wall sweeps the whole list of doors on its own, and cuts one hole for
    each door that passes its test -- a distance to the segment that does
    not exceed [1.0] and a distance along the wall strictly between [0.5]
    and the length minus [0.5] -- whatever the other walls do; in a scene
    every wall is built from itself and the list of doors alone.  A door
    that passes the test of two walls is cut out of both. *)
Theorem hosting_is_per_wall :
  (forall (wall : Wall.t) (doors : list Door.t) (s e : Point2D.t) (solid : WallSolid),
     wallEnds wall = Some (s, e) ->
     WallSegment wall (Some doors) = Ok (Some solid) ->
     THREE.holes (wall_shape solid) =
       map (fun door => doorHole (hosted (toWorld s) door))
         (filter (hostedBy wall) doors)) /\
  (forall (wall : Wall.t) (door : Door.t) (s e : Point2D.t),
     wallEnds wall = Some (s, e) ->
     (THREE.distanceToSquared (toWorld s) (toWorld e) <? 0.01) = false ->
     (hostedBy wall door = true <->
      exists p,
        Door.position door = Some p /\
        (1.0 <? distToLine (toWorld s) (toWorld e) (toWorld p)) = false /\
        (0.5 <? distAlong (toWorld s) (toWorld e) (toWorld p)) = true /\
        (distAlong (toWorld s) (toWorld e) (toWorld p)
           <? THREE.distanceTo (toWorld s) (toWorld e) - 0.5) = true)) /\
  (forall (data : BlueprintAnalysis) (hl : option string) (scene : Scene),
     SceneContent data hl = Ok scene ->
     Forall2 (fun wall solid => WallSegment wall (doors data) = Ok solid)
       (orEmpty (walls data)) (scene_walls scene)).
Proof.
  split; [|split].
  - intros wall doors s e solid H Hsolid. apply (WallSegment_holes _ _ _ _ _ H Hsolid).
  - intros wall door s e H D. unfold hostedBy. rewrite H, D. simpl. split.
    + apply keeps_elim.
    + intros (p & Hp & Hline & Hlo & Hhi). apply (keeps_intro _ _ _ _ _ Hp Hline Hlo Hhi).
  - apply SceneContent_walls.
Qed.

Lemma hosting_is_per_wall_witness :
  (exists solid,
     WallSegment divider (Some [junction_door]) = Ok (Some solid) /\
     THREE.holes (wall_shape solid) =
       map (fun door => doorHole (hosted (THREE.mkVector3 0 0 (-20)) door))
         (filter (hostedBy divider) [junction_door])) /\
  hostedBy partition junction_door = true /\
  (exists scene,
     SceneContent SAMPLE_DATA None = Ok scene /\
     Forall2 (fun wall solid => WallSegment wall (doors SAMPLE_DATA) = Ok solid)
       (orEmpty (walls SAMPLE_DATA)) (scene_walls scene)).
Proof.
  destruct hosting_is_per_wall as (Hholes & Hhost & Hscene).
  split; [|split].
  - eexists. split; [vm_compute; reflexivity|].
    apply (Hholes divider [junction_door]
             (Point2D.mk (VNum 50) (VNum 10)) (Point2D.mk (VNum 50) (VNum 70)));
      vm_compute; reflexivity.
  - apply (Hhost partition junction_door
             (Point2D.mk (VNum 50) (VNum 40)) (Point2D.mk (VNum 90) (VNum 40)));
      try (vm_compute; reflexivity).
    exists (Point2D.mk (VNum 51.5) (VNum 40)).
    repeat split; vm_compute; reflexivity.
  - eexists. split; [vm_compute; reflexivity|].
    apply (Hscene SAMPLE_DATA None). vm_compute. reflexivity.
Defined.

(** C4 as the specification states it fails: [junction_door] stands in
    [partition], [0.75] world units from the T junction with [divider].
    Both walls keep it and each gets a hole for it. *)
Lemma junction_door_two_walls :
  Wall.id divider <> Wall.id partition /\
  hostedBy divider junction_door = true /\
  hostedBy partition junction_door = true /\
  exists solid5 solid6,
    WallSegment divider (Some [junction_door]) = Ok (Some solid5) /\
    WallSegment partition (Some [junction_door]) = Ok (Some solid6) /\
    List.length (THREE.holes (wall_shape solid5)) = 1%nat /\
    List.length (THREE.holes (wall_shape solid6)) = 1%nat.
Proof.
  split; [discriminate|].
  split; [vm_compute; reflexivity|].
  split; [vm_compute; reflexivity|].
  do 2 eexists. repeat split; vm_compute; reflexivity.
Qed.

(** ** Rooms *)

Lemma mapM_floorVertex_valid (l : list (option Point2D.t)) :
  exists pts, mapM floorVertex (filter validPoint l) = Ok pts.
Proof.
  induction l as [|p l [pts IH]]; simpl; [eexists; reflexivity|].
  destruct (validPoint p) eqn:Hv; [|exists pts; exact IH].
  destruct p as [q|]; [|discriminate].
  simpl. rewrite IH. simpl. eexists. reflexivity.
Qed.

(** The floor profile never raises: every point kept by the filter is an
    object. *)
Lemma roomShape_total (room : Room.t) :
  exists shape, roomShape room = Ok shape.
Proof.
  unfold roomShape, validPoints.
  destruct (Room.polygon room) as [polygon|]; [|eexists; reflexivity].
  destruct (Nat.ltb _ 3); [eexists; reflexivity|].
  destruct (mapM_floorVertex_valid polygon) as [pts ->]. eexists. reflexivity.
Qed.

Lemma RoomFloor_total (room : Room.t) (isHighlighted : bool) :
  exists r, RoomFloor room isHighlighted = Ok r.
Proof.
  unfold RoomFloor. destruct (roomShape_total room) as [shape ->]. simpl.
  destruct shape; [destruct (roomCenter room)|]; eexists; reflexivity.
Qed.

(** C8: a room whose polygon keeps fewer than three points after the
    filter, or whose center is missing or has a coordinate that is not of
    type number, renders nothing: no floor slab and no label. *)
Theorem unrenderable_room :
  forall (room : Room.t) (isHighlighted : bool),
    (List.length (validPoints room) < 3)%nat \/
    Room.center room = None \/
    (exists c, Room.center room = Some c /\
               (typeof_number (Point2D.x c) = false \/
                typeof_number (Point2D.y c) = false)) ->
    RoomFloor room isHighlighted = Ok None.
Proof.
  intros room isHighlighted H. unfold RoomFloor.
  destruct H as [Hfew | Hcenter].
  - unfold roomShape. apply PeanoNat.Nat.ltb_lt in Hfew. rewrite Hfew. reflexivity.
  - destruct (roomShape_total room) as [shape ->]. simpl.
    destruct shape as [shape|]; [|reflexivity].
    assert (Hc : roomCenter room = None).
    { unfold roomCenter. destruct Hcenter as [-> | (c & -> & [Hx | Hy])].
      - reflexivity.
      - rewrite Hx. reflexivity.
      - rewrite Hy, andb_false_r. reflexivity. }
    rewrite Hc. reflexivity.
Qed.

Lemma unrenderable_room_witness :
  RoomFloor two_corner_room true = Ok None /\
  RoomFloor uncentered_room false = Ok None /\
  RoomFloor text_centered_room false = Ok None.
Proof.
  split; [|split].
  - apply unrenderable_room. left. vm_compute. repeat constructor.
  - apply unrenderable_room. right. left. reflexivity.
  - apply unrenderable_room. right. right.
    eexists. split; [reflexivity|]. left. reflexivity.
Defined.

(** ** Exceptions *)

(** A wall that passes its guards raises as soon as one door of the list
    has no position. *)
Lemma WallSegment_raises (wall : Wall.t) (doors : list Door.t) s e :
  wallEnds wall = Some (s, e) ->
  (THREE.distanceToSquared (toWorld s) (toWorld e) <? 0.01) = false ->
  forallb positioned doors = false ->
  WallSegment wall (Some doors) = Throw TypeError.
Proof.
  intros H D Hpos. rewrite (WallSegment_eq _ _ _ _ H D), Hpos. reflexivity.
Qed.

Lemma mapM_total {A B : Type} (f : A -> result B) (l : list A) :
  (forall a, In a l -> exists b, f a = Ok b) -> exists r, mapM f l = Ok r.
Proof.
  induction l as [|a l IH]; simpl; intros H; [eexists; reflexivity|].
  destruct (H a (or_introl eq_refl)) as [b ->].
  destruct IH as [r ->]; [intros; apply H; right; assumption|].
  simpl. eexists. reflexivity.
Qed.

Lemma WallSegment_total (wall : Wall.t) (doors : option (list Door.t)) :
  forallb positioned (orEmpty doors) = true ->
  exists solid, WallSegment wall doors = Ok solid.
Proof.
  intros Hpos. destruct (wallEnds wall) as [[s e]|] eqn:H.
  - destruct (THREE.distanceToSquared (toWorld s) (toWorld e) <? 0.01) eqn:D.
    + rewrite (WallSegment_degenerate _ _ _ _ H D). eexists. reflexivity.
    + destruct (WallSegment_solid _ _ _ _ H D Hpos) as [kept ->]. eexists. reflexivity.
  - rewrite (WallSegment_guard _ _ H). eexists. reflexivity.
Qed.

(** On arrays of objects the scene is built without exception when every
    door has a position, and the render is aborted when a door has none
    and some wall passes its guards. *)
Lemma SceneContent_total (data : BlueprintAnalysis) (hl : option string) :
  forallb positioned (orEmpty (doors data)) = true ->
  exists scene, SceneContent data hl = Ok scene.
Proof.
  intros Hpos. unfold SceneContent.
  destruct (mapM_total (fun wall => WallSegment wall (doors data)) (orEmpty (walls data)))
    as [ws ->]; [intros wall _; apply WallSegment_total, Hpos|].
  destruct (mapM_total
              (fun room => RoomFloor room (strictEq hl (Room.id room)))
              (orEmpty (rooms data)))
    as [rs ->]; [intros room _; apply RoomFloor_total|].
  simpl. eexists. reflexivity.
Qed.

Lemma SceneContent_raises (data : BlueprintAnalysis) (hl : option string)
    (wall : Wall.t) (ds : list Door.t) s e :
  In wall (orEmpty (walls data)) ->
  doors data = Some ds ->
  wallEnds wall = Some (s, e) ->
  (THREE.distanceToSquared (toWorld s) (toWorld e) <? 0.01) = false ->
  forallb positioned ds = false ->
  SceneContent data hl = Throw TypeError.
Proof.
  intros Hin Hds H D Hpos. unfold SceneContent.
  destruct (mapM_Throw (fun wall => WallSegment wall (doors data))
              (orEmpty (walls data)) wall TypeError Hin) as [err ->].
  - rewrite Hds. apply (WallSegment_raises _ _ _ _ H D Hpos).
  - destruct err. reflexivity.
Qed.

(** C3 fails on the code: with the position of one door missing, the door
    component guards the access and renders nothing, but the sweep of the
    first wall reads [door.position.x] unguarded and raises, and the
    exception aborts the scene. *)
Theorem missing_position_raises :
  DoorMesh unplaced_door = None /\
  (exists wall rest,
     walls unplaced_plan = Some (wall :: rest) /\
     WallSegment wall (doors unplaced_plan) = Throw TypeError) /\
  SceneContent unplaced_plan None = Throw TypeError.
Proof.
  split; [reflexivity|]. split.
  - do 2 eexists. split; [reflexivity|]. vm_compute. reflexivity.
  - vm_compute. reflexivity.
Qed.

(** ** The sample *)


(** ** The highlight *)

Lemma RoomFloor_highlight (room : Room.t) (b1 b2 : bool) :
  exists r1 r2,
    RoomFloor room b1 = Ok r1 /\ RoomFloor room b2 = Ok r2 /\
    sameRoomGeometry r1 r2 /\ roomLook b1 r1 /\ roomLook b2 r2.
Proof.
  unfold RoomFloor. destruct (roomShape_total room) as [shape ->]. simpl.
  destruct shape as [shape|]; [destruct (roomCenter room) as [c|]|];
    do 2 eexists; repeat split.
Qed.

Lemma mapM_ext_in {A B : Type} (f g : A -> result B) (l : list A) :
  (forall a, In a l -> f a = g a) -> mapM f l = mapM g l.
Proof.
  induction l as [|a l IH]; simpl; intros H; [reflexivity|].
  rewrite (H a (or_introl eq_refl)), IH; [reflexivity|].
  intros; apply H; right; assumption.
Qed.

(** C9: for a given plan, two selections give the same outcome for walls
    and doors -- the same exception, or scenes with the same wall solids
    and the same door assemblies -- and rooms that differ at most in the
    material of the slab and the style of the label, which follow the
    highlight of the room; two selections that highlight the same rooms,
    so the same selection twice, give the same scene. *)
Theorem highlight_frame :
  forall (data : BlueprintAnalysis) (h1 h2 : option string),
    match SceneContent data h1, SceneContent data h2 with
    | Ok scene1, Ok scene2 =>
        scene_walls scene1 = scene_walls scene2 /\
        scene_doors scene1 = scene_doors scene2 /\
        scene_doors scene1 = map DoorMesh (orEmpty (doors data)) /\
        Forall2 sameRoomGeometry (scene_rooms scene1) (scene_rooms scene2) /\
        Forall2 (fun room r => roomLook (strictEq h1 (Room.id room)) r)
          (orEmpty (rooms data)) (scene_rooms scene1)
    | Throw e1, Throw e2 => e1 = e2
    | _, _ => False
    end /\
    ((forall room, In room (orEmpty (rooms data)) ->
        strictEq h1 (Room.id room) = strictEq h2 (Room.id room)) ->
     SceneContent data h1 = SceneContent data h2).
Proof.
  intros data h1 h2. unfold SceneContent. split.
  - destruct (mapM _ (orEmpty (walls data))) as [ws|err]; simpl; [|reflexivity].
    assert (Hrooms : exists l1 l2,
      mapM (fun room => RoomFloor room (strictEq h1 (Room.id room)))
        (orEmpty (rooms data)) = Ok l1 /\
      mapM (fun room => RoomFloor room (strictEq h2 (Room.id room)))
        (orEmpty (rooms data)) = Ok l2 /\
      Forall2 sameRoomGeometry l1 l2 /\
      Forall2 (fun room r => roomLook (strictEq h1 (Room.id room)) r)
        (orEmpty (rooms data)) l1).
    { induction (orEmpty (rooms data)) as [|room l IH]; simpl.
      - exists [], []. repeat split; constructor.
      - destruct (RoomFloor_highlight room (strictEq h1 (Room.id room))
                    (strictEq h2 (Room.id room)))
          as (r1 & r2 & -> & -> & Hgeo & Hlook & _).
        destruct IH as (l1 & l2 & -> & -> & Hl & Hlooks). simpl.
        exists (r1 :: l1), (r2 :: l2). repeat split; constructor; assumption. }
    destruct Hrooms as (l1 & l2 & -> & -> & Hgeo & Hlook). simpl.
    repeat split; assumption.
  - intros Hsame.
    destruct (mapM _ (orEmpty (walls data))) as [ws|err]; simpl; [|reflexivity].
    rewrite (mapM_ext_in
               (fun room => RoomFloor room (strictEq h1 (Room.id room)))
               (fun room => RoomFloor room (strictEq h2 (Room.id room))));
      [reflexivity|].
    intros room Hin. rewrite (Hsame room Hin). reflexivity.
Qed.

Lemma highlight_frame_witness :
  SceneContent SAMPLE_DATA None = SceneContent SAMPLE_DATA (Some "r9").
Proof.
  apply (highlight_frame SAMPLE_DATA None (Some "r9")).
  intros room Hin. simpl in Hin.
  destruct Hin as [<-|[<-|[<-|[]]]]; reflexivity.
Defined.

(** ** NaN coordinates *)




(** * Further properties of the viewer *)

(** ** When the scene raises *)

Lemma mapM_Throw_inv {A B : Type} (f : A -> result B) (l : list A) err :
  mapM f l = Throw err -> exists a, In a l /\ f a = Throw err.
Proof.
  induction l as [|a l IH]; simpl; intros H; [discriminate|].
  destruct (f a) as [b|e] eqn:Ha; simpl in H.
  - destruct (mapM f l) as [r|e]; simpl in H; [discriminate|].
    destruct (IH H) as (a' & Hin & Ha'). exists a'. auto.
  - exists a. split; [left; reflexivity | congruence].
Qed.

Lemma mapM_length {A B : Type} (f : A -> result B) (l : list A) (r : list B) :
  mapM f l = Ok r -> List.length r = List.length l.
Proof.
  intros H. apply mapM_Forall2 in H.
  induction H; simpl; congruence.
Qed.

Lemma WallSegment_Throw_inv (wall : Wall.t) (doors : option (list Door.t)) err :
  WallSegment wall doors = Throw err ->
  buildable wall = true /\
  exists ds, doors = Some ds /\ forallb positioned ds = false.
Proof.
  intros H. unfold buildable.
  destruct (wallEnds wall) as [[s e]|] eqn:Hends;
    [|rewrite (WallSegment_guard _ _ Hends) in H; discriminate].
  destruct (THREE.distanceToSquared (toWorld s) (toWorld e) <? 0.01) eqn:D;
    [rewrite (WallSegment_degenerate _ _ _ _ Hends D) in H; discriminate|].
  split; [reflexivity|].
  destruct doors as [ds|];
    [|rewrite (WallSegment_no_doors _ _ _ Hends D) in H; discriminate].
  exists ds. split; [reflexivity|].
  rewrite (WallSegment_eq _ _ _ _ Hends D) in H.
  destruct (forallb positioned ds); [discriminate | reflexivity].
Qed.

(** On arrays of objects the render of the scene is aborted exactly when
    the plan has a door without position together with a wall that passes
    both guards of the wall builder. *)
Lemma SceneContent_Throw_iff (data : BlueprintAnalysis) (hl : option string) :
  SceneContent data hl = Throw TypeError <->
  (exists wall door,
     In wall (orEmpty (walls data)) /\ buildable wall = true /\
     In door (orEmpty (doors data)) /\ positioned door = false).
Proof.
  split.
  - unfold SceneContent. intros H.
    destruct (mapM _ (orEmpty (walls data))) as [ws|err] eqn:Hws; simpl in H.
    + destruct (mapM_total
                  (fun room => RoomFloor room (strictEq hl (Room.id room)))
                  (orEmpty (rooms data))) as [rs Hrs];
        [intros room _; apply RoomFloor_total|].
      rewrite Hrs in H. discriminate.
    + destruct (mapM_Throw_inv _ _ _ Hws) as (wall & Hin & Hwall).
      destruct (WallSegment_Throw_inv _ _ _ Hwall) as (Hb & ds & Hds & Hpos).
      assert (Hex : existsb (fun door => negb (positioned door)) ds = true).
      { clear -Hpos. induction ds as [|d ds IH]; simpl in *; [discriminate|].
        destruct (positioned d); simpl in *; [apply IH, Hpos | reflexivity]. }
      apply existsb_exists in Hex as (door & Hdoor & Hneg).
      exists wall, door. rewrite Hds. simpl.
      apply negb_true_iff in Hneg. auto.
  - intros (wall & door & Hin & Hb & Hdoor & Hpos). unfold buildable in Hb.
    destruct (wallEnds wall) as [[s e]|] eqn:Hends; [|discriminate].
    apply negb_true_iff in Hb.
    destruct (doors data) as [ds|] eqn:Hds; [|contradiction].
    apply (SceneContent_raises data hl wall ds s e Hin Hds Hends Hb).
    simpl in Hdoor. destruct (forallb positioned ds) eqn:Hall; [|reflexivity].
    rewrite forallb_forall in Hall. rewrite (Hall door Hdoor) in Hpos. discriminate.
Qed.

(** Reading the ids of the entries of an array succeeds on objects and
    fails on the first [null]. *)
Lemma elements_cases {A : Type} (array : option (list (option A))) :
  (exists objects,
     elements array = Ok objects /\
     orEmpty array = map Some (orEmpty objects)) \/
  (elements array = Throw TypeError /\ In None (orEmpty array)).
Proof.
  destruct array as [entries|]; simpl; [|left; exists None; auto].
  induction entries as [|[object|] entries IH]; simpl.
  - left. exists (Some []). auto.
  - destruct IH as [(objects & H & Heq)|[H Hin]].
    + destruct (mapM readId entries) as [os|err]; simpl in H; [|discriminate].
      injection H as <-. simpl in Heq. left. exists (Some (object :: os)).
      simpl. rewrite Heq. auto.
    + destruct (mapM readId entries) as [os|err]; simpl in H; [discriminate|].
      right. simpl. auto.
  - right. auto.
Qed.

Lemma null_not_object {A : Type} (objects : list A) : ~ In None (map Some objects).
Proof. intros H. apply in_map_iff in H as (a & Ha & _). discriminate. Qed.

Lemma In_object {A : Type} (a : A) (objects : list A) :
  In (Some a) (map Some objects) <-> In a objects.
Proof.
  split; [|apply in_map].
  intros H. apply in_map_iff in H as (b & Hb & Hin). injection Hb as ->. exact Hin.
Qed.

(** The render of the scene is aborted by an exception exactly when one
    of the arrays of walls, doors and rooms holds a [null], whose id the
    composer reads for the key of its element, or the plan has a door
    without position together with a wall that passes both guards of the
    wall builder.  A wall or a room never raises by itself, whatever
    fields it lacks and whatever its coordinates hold. *)
Theorem scene_raises_iff :
  forall (data : ParsedAnalysis) (hl : option string),
    SceneContentParsed data hl = Throw TypeError <->
    (In None (orEmpty (parsed_walls data)) \/
     In None (orEmpty (parsed_doors data)) \/
     In None (orEmpty (parsed_rooms data)) \/
     exists wall door,
       In (Some wall) (orEmpty (parsed_walls data)) /\ buildable wall = true /\
       In (Some door) (orEmpty (parsed_doors data)) /\ positioned door = false).
Proof.
  intros data hl. unfold SceneContentParsed.
  destruct (elements_cases (parsed_walls data)) as [(ws & -> & Hws)|[-> Hin]];
    [|simpl; split; auto].
  destruct (elements_cases (parsed_doors data)) as [(ds & -> & Hds)|[-> Hin]];
    [|simpl; split; auto].
  destruct (elements_cases (parsed_rooms data)) as [(rs & -> & Hrs)|[-> Hin]];
    [|simpl; split; auto].
  simpl. rewrite Hws, Hds, Hrs, SceneContent_Throw_iff. simpl. split.
  - intros (wall & door & Hwall & Hb & Hdoor & Hpos).
    right; right; right. exists wall, door.
    rewrite !In_object. auto.
  - intros [H|[H|[H|(wall & door & Hwall & Hb & Hdoor & Hpos)]]];
      try (exfalso; exact (null_not_object _ H)).
    exists wall, door. apply (proj1 (In_object _ _)) in Hwall.
    apply (proj1 (In_object _ _)) in Hdoor. auto.
Qed.

Lemma scene_raises_iff_witness :
  SceneContentParsed null_wall_plan None = Throw TypeError /\
  SceneContentParsed null_room_plan None = Throw TypeError /\
  SceneContentParsed (parsed unplaced_plan) (Some "r1") = Throw TypeError.
Proof.
  split; [apply scene_raises_iff; left; left; reflexivity|].
  split; [apply scene_raises_iff; right; right; left; left; reflexivity|].
  apply scene_raises_iff. right; right; right.
  exists top_wall, unplaced_door.
  split; [vm_compute; auto|].
  split; [vm_compute; reflexivity|].
  split; [vm_compute; auto | vm_compute; reflexivity].
Defined.

(** When no entry of the arrays of walls, doors and rooms is [null] and
    every door of the plan has a position, the scene is built, whatever
    fields the walls and rooms lack, whatever their coordinates hold and
    whatever is selected, and it has one entry -- a component or nothing
    -- for each wall, door and room of the plan, in their order. *)
Theorem scene_built :
  forall (data : ParsedAnalysis) (hl : option string),
    ~ In None (orEmpty (parsed_walls data)) ->
    ~ In None (orEmpty (parsed_doors data)) ->
    ~ In None (orEmpty (parsed_rooms data)) ->
    (forall door, In (Some door) (orEmpty (parsed_doors data)) ->
                  positioned door = true) ->
    exists scene,
      SceneContentParsed data hl = Ok scene /\
      List.length (scene_walls scene) = List.length (orEmpty (parsed_walls data)) /\
      List.length (scene_doors scene) = List.length (orEmpty (parsed_doors data)) /\
      List.length (scene_rooms scene) = List.length (orEmpty (parsed_rooms data)).
Proof.
  intros data hl Hw Hd Hr Hpos. unfold SceneContentParsed.
  destruct (elements_cases (parsed_walls data)) as [(ws & -> & Hws)|[_ Hin]];
    [|contradiction].
  destruct (elements_cases (parsed_doors data)) as [(ds & -> & Hds)|[_ Hin]];
    [|contradiction].
  destruct (elements_cases (parsed_rooms data)) as [(rs & -> & Hrs)|[_ Hin]];
    [|contradiction].
  simpl. rewrite Hws, Hds, Hrs, !length_map.
  assert (Hall : forallb positioned (orEmpty (doors (mkData ws ds rs))) = true).
  { apply forallb_forall. intros door Hdoor. apply Hpos.
    rewrite Hds. apply In_object, Hdoor. }
  destruct (SceneContent_total (mkData ws ds rs) hl Hall) as [scene Hscene].
  exists scene. split; [exact Hscene|].
  unfold SceneContent in Hscene.
  destruct (mapM _ (orEmpty (walls (mkData ws ds rs)))) as [ws'|err] eqn:Hws';
    simpl in Hscene; [|discriminate].
  destruct (mapM (fun room => RoomFloor room _) _) as [rs'|err] eqn:Hrs';
    simpl in Hscene; [|discriminate].
  injection Hscene as <-. simpl.
  rewrite (mapM_length _ _ _ Hws'), (mapM_length _ _ _ Hrs'), length_map. auto.
Qed.

Lemma scene_built_witness :
  exists scene,
    SceneContentParsed (parsed SAMPLE_DATA) None = Ok scene /\
    List.length (scene_walls scene) = 6%nat /\
    List.length (scene_doors scene) = 3%nat /\
    List.length (scene_rooms scene) = 3%nat.
Proof.
  apply (scene_built (parsed SAMPLE_DATA) None);
    try (simpl; intuition discriminate).
  intros door Hdoor. simpl in Hdoor.
  repeat (destruct Hdoor as [Hdoor|Hdoor]; [injection Hdoor as <-; reflexivity|]).
  contradiction.
Defined.

(** ** When a room is rendered *)

Lemma mapM_floorVertex_length (l : list (option Point2D.t)) pts :
  mapM floorVertex l = Ok pts -> List.length pts = List.length l.
Proof. apply mapM_length. Qed.

Lemma roomCenter_Some (room : Room.t) c :
  roomCenter room = Some c ->
  exists cx cy, Room.center room = Some (Point2D.mk (VNum cx) (VNum cy)) /\
                c = Point2D.mk (VNum cx) (VNum cy).
Proof.
  unfold roomCenter. destruct (Room.center room) as [[vx vy]|]; [|discriminate].
  destruct vx; try discriminate. destruct vy; try discriminate.
  simpl. intros H. injection H as <-. eauto.
Qed.

(** The floor builder never raises, whatever the polygon holds ([null]
    entries, text, NaN), and it renders a room exactly when at least three
    points of the polygon pass the filter and both coordinates of the
    center have type number.  The floor profile then has one vertex for
    each point that passed the filter and no hole, the label stands at the
    mapped center, [2.5] above the floor, and a click reports the id of the
    room. *)
Theorem RoomFloor_renders_iff :
  forall (room : Room.t) (isHighlighted : bool),
    (exists r, RoomFloor room isHighlighted = Ok r) /\
    ((exists g, RoomFloor room isHighlighted = Ok (Some g)) <->
     (3 <= List.length (validPoints room))%nat /\
     exists cx cy, Room.center room = Some (Point2D.mk (VNum cx) (VNum cy))) /\
    (forall g cx cy,
       RoomFloor room isHighlighted = Ok (Some g) ->
       Room.center room = Some (Point2D.mk (VNum cx) (VNum cy)) ->
       List.length (THREE.outline (room_shape g)) = List.length (validPoints room) /\
       THREE.holes (room_shape g) = [] /\
       room_label_position g =
         THREE.mkVector3 (mapCoord (VNum cx)) 2.5 (mapCoord (VNum cy)) /\
       room_onClick g = Room.id room).
Proof.
  intros room isHighlighted.
  split; [apply RoomFloor_total|].
  unfold RoomFloor, roomShape.
  destruct (Nat.ltb (List.length (validPoints room)) 3) eqn:Hlt; simpl.
  - apply PeanoNat.Nat.ltb_lt in Hlt. split.
    + split; [intros [g Hg]; discriminate|].
      intros [Hge _]. exfalso. apply (PeanoNat.Nat.lt_irrefl 3).
      eapply PeanoNat.Nat.le_lt_trans; eassumption.
    + intros g cx cy Hg. discriminate.
  - apply PeanoNat.Nat.ltb_ge in Hlt.
    destruct (roomShape_total room) as [shape Hshape].
    unfold roomShape in Hshape.
    destruct (Nat.ltb (List.length (validPoints room)) 3) eqn:Hlt'.
    { apply PeanoNat.Nat.ltb_lt in Hlt'. exfalso.
      apply (PeanoNat.Nat.lt_irrefl 3). eapply PeanoNat.Nat.le_lt_trans; eassumption. }
    destruct (mapM floorVertex (validPoints room)) as [pts|err] eqn:Hpts;
      simpl in Hshape; [|discriminate].
    simpl. destruct (roomCenter room) as [c|] eqn:Hc.
    + destruct (roomCenter_Some _ _ Hc) as (cx & cy & Hcenter & ->). split.
      * split; [intros _; split; [exact Hlt | eauto] | intros _; eexists; reflexivity].
      * intros g cx' cy' Hg Hcenter'. injection Hg as <-. simpl.
        rewrite Hcenter in Hcenter'. injection Hcenter' as <- <-.
        repeat split. apply (mapM_floorVertex_length _ _ Hpts).
    + split.
      * split; [intros [g Hg]; discriminate|].
        intros (_ & cx & cy & Hcenter). unfold roomCenter in Hc.
        rewrite Hcenter in Hc. discriminate.
      * intros g cx cy Hg. discriminate.
Qed.

Lemma RoomFloor_renders_iff_witness :
  exists g, RoomFloor
              (Room.mk (Some "r1") "Open Office" (Some 400) (pt nan 40)
                 (Some [None; pt 10 10; pt 50 10; pt nan 5; pt 50 70; pt 10 70])
                 None None) true = Ok (Some g).
Proof.
  apply RoomFloor_renders_iff. split.
  - vm_compute. repeat constructor.
  - exists nan, 40. reflexivity.
Defined.

(** ** Doors and their holes *)

(** The hole that a wall cuts for a door and the assembly rendered for the
    door agree on the opening: both use [(door.width || 6) * 0.5] for the
    width and [2.2] for the height.  The hole is a rectangle of that width
    and height, the leaf of the door has that width, and the two jambs are
    [2.2] high. *)
Theorem hole_fits_door :
  forall (door : Door.t) (px py : float) (start : THREE.Vector3),
    Door.position door = Some (Point2D.mk (VNum px) (VNum py)) ->
    let w := or_default (Door.width door) 6 * 0.5 in
    exists assembly left,
      DoorMesh door = Some assembly /\
      doorHole (hosted start door) = floorRect left w 2.2 /\
      In (RoundedBox w (2.2 - 0.02) 0.1 0.02) (assemblyGeometries assembly) /\
      List.length (filter (fun g => match g with
                                    | boxGeometry _ h d => (h =? 2.2) && (d =? 0.6)
                                    | _ => false
                                    end) (assemblyGeometries assembly)) = 2%nat.
Proof.
  intros door px py start Hp w.
  unfold DoorMesh, doorAt. rewrite Hp. simpl.
  eexists. eexists. split; [reflexivity|].
  split; [apply (doorHole_hosted start door _ Hp)|].
  unfold assemblyGeometries. simpl.
  split; [do 9 right; left; reflexivity|].
  reflexivity.
Qed.

Lemma hole_fits_door_witness :
  exists assembly left,
    DoorMesh zero_width_door = Some assembly /\
    doorHole (hosted (THREE.mkVector3 (-20) 0 (-20)) zero_width_door) =
      floorRect left (or_default (Door.width zero_width_door) 6 * 0.5) 2.2 /\
    In (RoundedBox (or_default (Door.width zero_width_door) 6 * 0.5) (2.2 - 0.02) 0.1 0.02)
       (assemblyGeometries assembly) /\
    List.length (filter (fun g => match g with
                                  | boxGeometry _ h d => (h =? 2.2) && (d =? 0.6)
                                  | _ => false
                                  end) (assemblyGeometries assembly)) = 2%nat.
Proof.
  apply (hole_fits_door zero_width_door 50 10). reflexivity.
Defined.

(** A door whose position is an object with coordinates that are not
    numbers is not rendered, but the sweep of the walls still reads it:
    both coordinates are mapped to [0], so every wall treats the door as
    standing at the world origin, and a wall that passes there cuts a hole
    for a door that the scene does not show. *)
Theorem unnumbered_door_at_origin :
  forall (door : Door.t) (vx vy : value) (start end_ : THREE.Vector3) (length : float),
    Door.position door = Some (Point2D.mk vx vy) ->
    typeof_number vx = false ->
    typeof_number vy = false ->
    DoorMesh door = None /\
    readDoorPos door = Ok (THREE.mkVector3 0 0 0) /\
    keeps start end_ length door = hostsAt start end_ length (THREE.mkVector3 0 0 0).
Proof.
  intros door vx vy start end_ length Hp Hx Hy.
  unfold DoorMesh, doorAt, readDoorPos, keeps. rewrite Hp. simpl. rewrite Hx. simpl.
  assert (Hw : toWorld (Point2D.mk vx vy) = THREE.mkVector3 0 0 0).
  { unfold toWorld. simpl. destruct vx, vy; try discriminate; reflexivity. }
  rewrite Hw. auto.
Qed.

Lemma unnumbered_door_at_origin_witness :
  DoorMesh text_door = None /\
  exists solid,
    WallSegment middle_wall (Some [text_door]) = Ok (Some solid) /\
    List.length (THREE.holes (wall_shape solid)) = 1%nat.
Proof.
  destruct (unnumbered_door_at_origin text_door (VStr "50") (VStr "50")
              (THREE.mkVector3 (-20) 0 0) (THREE.mkVector3 20 0 0) 40
              eq_refl eq_refl eq_refl) as (Hmesh & _ & Hkeeps).
  split; [exact Hmesh|].
  eexists. split; [vm_compute; reflexivity | reflexivity].
Defined.

Lemma filter_none {A : Type} (p : A -> bool) (l : list A) :
  (forall a, In a l -> p a = false) -> filter p l = [].
Proof.
  induction l as [|a l IH]; simpl; intros H; [reflexivity|].
  rewrite (H a (or_introl eq_refl)). apply IH. intros; apply H; right; assumption.
Qed.

(** A wall cuts no hole for doors that are further than [1.0] from its
    segment: with only such doors in the plan, or with no doors at all,
    the profile of the wall is the plain rectangle, while each door with a
    numeric position is still rendered as a freestanding assembly.  In any
    case a wall has at most as many holes as the plan has doors. *)
Theorem far_doors_cut_nothing :
  forall (wall : Wall.t) (doors : list Door.t) (s e : Point2D.t) (solid : WallSolid),
    wallEnds wall = Some (s, e) ->
    WallSegment wall (Some doors) = Ok (Some solid) ->
    (List.length (THREE.holes (wall_shape solid)) <= List.length doors)%nat /\
    ((forall door p, In door doors -> Door.position door = Some p ->
        (1.0 <? distToLine (toWorld s) (toWorld e) (toWorld p)) = true) ->
     THREE.holes (wall_shape solid) = [] /\
     THREE.outline (wall_shape solid) =
       [ (0, 0); (THREE.distanceTo (toWorld s) (toWorld e), 0);
         (THREE.distanceTo (toWorld s) (toWorld e), 3.0); (0, 3.0) ]).
Proof.
  intros wall doors s e solid H Hsolid.
  pose proof (WallSegment_holes _ _ _ _ _ H Hsolid) as Hholes.
  split.
  - rewrite Hholes, length_map. apply filter_length_le.
  - intros Hfar.
    assert (Hnone : filter (hostedBy wall) doors = []).
    { apply filter_none. intros door Hin. unfold hostedBy. rewrite H.
      unfold keeps, hostsAt.
      destruct (Door.position door) as [p|] eqn:Hp; [|apply andb_false_r].
      rewrite (Hfar door p Hin Hp). apply andb_false_r. }
    rewrite Hholes, Hnone. split; [reflexivity|].
    destruct (THREE.distanceToSquared (toWorld s) (toWorld e) <? 0.01) eqn:D.
    + rewrite (WallSegment_degenerate _ _ _ _ H D) in Hsolid. discriminate.
    + rewrite (WallSegment_eq _ _ _ _ H D) in Hsolid.
      destruct (forallb positioned doors); [|discriminate].
      injection Hsolid as <-. reflexivity.
Qed.

Lemma far_doors_cut_nothing_witness :
  exists solid,
    WallSegment top_wall (Some [far_door]) = Ok (Some solid) /\
    THREE.holes (wall_shape solid) = [] /\
    THREE.outline (wall_shape solid) = [ (0, 0); (40, 0); (40, 3.0); (0, 3.0) ].
Proof.
  eexists. split; [vm_compute; reflexivity|].
  refine (proj2 (far_doors_cut_nothing top_wall [far_door]
                   (Point2D.mk (VNum 10) (VNum 10)) (Point2D.mk (VNum 90) (VNum 10))
                   _ eq_refl eq_refl) _).
  intros door p [<-|[]] Hp. injection Hp as <-. vm_compute. reflexivity.
Defined.

(** ** Numbers in the scene *)

Lemma mapCoord_not_nan (val : value) : isNaN (mapCoord val) = false.
Proof.
  destruct val as [| | b | f | s]; try reflexivity.
  unfold mapCoord. destruct (isNaN f) eqn:Hf; [reflexivity|].
  eapply div_finite_not_nan; [vm_compute; reflexivity|].
  eapply sub_finite_not_nan; [vm_compute; reflexivity | exact Hf].
Qed.

(** The world thickness of every wall lies between [0.3] and [1.0],
    whatever the plan gives as thickness: absent, zero, negative, huge,
    infinite or NaN. *)
Theorem wallThickness_range :
  forall wall : Wall.t,
    (0.3 <=? wallThickness wall) = true /\ (wallThickness wall <=? 1.0) = true.
Proof.
  intros wall. unfold wallThickness.
  destruct (Wall.thickness wall) as [t|]; [|split; reflexivity].
  destruct (truthy t) eqn:Ht; [|split; reflexivity].
  unfold truthy in Ht. apply negb_true_iff, orb_false_iff in Ht as [Hnan _].
  apply min_max_range; try reflexivity.
  eapply div_finite_not_nan; [vm_compute; reflexivity | exact Hnan].
Qed.

Lemma opp_not_nan (x : float) : isNaN x = false -> isNaN (- x) = false.
Proof.
  intros Hx. apply isNaN_false. apply isNaN_false in Hx.
  rewrite opp_spec. destruct (Prim2SF x); simpl; congruence.
Qed.

Lemma toWorld_numeric (p : Point2D.t) : numericVector (toWorld p).
Proof.
  unfold numericVector, toWorld. simpl.
  repeat split; try apply mapCoord_not_nan.
Qed.

Lemma mapM_floorVertex_numeric (l : list (option Point2D.t)) pts :
  mapM floorVertex l = Ok pts -> Forall numericPoint pts.
Proof.
  revert pts. induction l as [|p l IH]; simpl; intros pts H.
  - injection H as <-. constructor.
  - destruct p as [q|]; simpl in H; [|discriminate].
    destruct (mapM floorVertex l) as [r|err]; simpl in H; [|discriminate].
    injection H as <-. constructor; [|apply IH; reflexivity].
    split; simpl; [apply mapCoord_not_nan | apply opp_not_nan, mapCoord_not_nan].
Qed.

(** The coordinate mapper never returns NaN, whatever it is given --
    numbers of any size, the infinities, NaN, values that are not numbers
    -- so no NaN reaches a position of the scene: the place of every wall
    solid, of every door assembly and of every room label, and every vertex
    of a floor profile, have coordinates that are numbers, whatever the
    plan holds in its coordinate fields. *)
Theorem scene_positions_numeric :
  (forall val : value, isNaN (mapCoord val) = false) /\
  (forall wall doors solid,
     WallSegment wall doors = Ok (Some solid) -> numericVector (wall_position solid)) /\
  (forall door assembly,
     DoorMesh door = Some assembly -> numericVector (door_position assembly)) /\
  (forall room isHighlighted g,
     RoomFloor room isHighlighted = Ok (Some g) ->
     numericVector (room_label_position g) /\
     Forall numericPoint (THREE.outline (room_shape g))).
Proof.
  split; [apply mapCoord_not_nan|]. split; [|split].
  - intros wall doors solid. unfold WallSegment.
    destruct (wallEnds wall) as [[s e]|]; [|discriminate].
    destruct (_ <? 0.01); [discriminate|].
    destruct (relevantDoors _ _ _ _) as [kept|err]; simpl; [|discriminate].
    intros H. injection H as <-. apply toWorld_numeric.
  - intros door assembly. unfold DoorMesh.
    destruct (doorAt door) as [p|]; [|discriminate].
    intros H. injection H as <-. apply toWorld_numeric.
  - intros room isHighlighted g. unfold RoomFloor, roomShape.
    destruct (Nat.ltb _ 3); simpl; [discriminate|].
    destruct (mapM floorVertex (validPoints room)) as [pts|err] eqn:Hpts; simpl;
      [|discriminate].
    destruct (roomCenter room) as [c|]; [|discriminate].
    intros H. injection H as <-. simpl. split.
    + repeat split; try apply mapCoord_not_nan.
    + apply (mapM_floorVertex_numeric _ _ Hpts).
Qed.

Lemma scene_positions_numeric_witness :
  (exists solid,
     WallSegment half_nan_wall None = Ok (Some solid) /\
     numericVector (wall_position solid)) /\
  (exists assembly,
     DoorMesh nan_door = Some assembly /\
     numericVector (door_position assembly)).
Proof.
  destruct scene_positions_numeric as (_ & Hwall & Hdoor & _).
  split.
  - eexists. split; [vm_compute; reflexivity|].
    apply (Hwall half_nan_wall None). vm_compute. reflexivity.
  - eexists. split; [vm_compute; reflexivity|].
    apply (Hdoor nan_door). vm_compute. reflexivity.
Defined.

(** ** How many rooms are highlighted *)

Lemma strictEq_true (hl id : option string) :
  strictEq hl id = true -> hl = id /\ hl <> None.
Proof.
  destruct hl as [a|], id as [b|]; simpl; try discriminate.
  intros H. apply String.eqb_eq in H. subst. split; [reflexivity | discriminate].
Qed.

Lemma RoomFloor_lit (room : Room.t) (b : bool) r :
  RoomFloor room b = Ok r -> isLit r = true -> b = true.
Proof.
  destruct (RoomFloor_highlight room b b) as (r1 & r2 & H1 & _ & _ & Hlook & _).
  intros H. rewrite H1 in H. injection H as <-.
  destruct r1 as [g|]; simpl; [|discriminate].
  destruct Hlook as [_ Hlit]. congruence.
Qed.

Lemma lit_rooms_bound (hl : option string) (rooms : list Room.t) rs :
  mapM (fun room => RoomFloor room (strictEq hl (Room.id room))) rooms = Ok rs ->
  (List.length (filter isLit rs) <=
   List.length (filter (fun room => strictEq hl (Room.id room)) rooms))%nat.
Proof.
  revert rs. induction rooms as [|room rooms IH]; simpl; intros rs H.
  - injection H as <-. apply le_n.
  - destruct (RoomFloor room (strictEq hl (Room.id room))) as [r|err] eqn:Hr;
      simpl in H; [|discriminate].
    destruct (mapM _ rooms) as [rs'|err]; simpl in H; [|discriminate].
    injection H as <-. simpl. specialize (IH rs' eq_refl).
    destruct (isLit r) eqn:Hlit.
    + rewrite (RoomFloor_lit _ _ _ Hr Hlit). simpl. apply le_n_S, IH.
    + destruct (strictEq hl (Room.id room)); simpl; [apply le_S|]; exact IH.
Qed.

Lemma NoDup_filter_eq (hl : option string) (rooms : list Room.t) :
  NoDup (map Room.id rooms) ->
  (List.length (filter (fun room => strictEq hl (Room.id room)) rooms) <= 1)%nat.
Proof.
  induction rooms as [|room rooms IH]; simpl; intros Hnd; [apply le_0_n|].
  inversion Hnd as [|id ids Hnotin Hnd']; subst.
  destruct (strictEq hl (Room.id room)) eqn:Heq; [|apply IH, Hnd'].
  apply strictEq_true in Heq as [-> _]. simpl. apply le_n_S.
  rewrite (filter_none (fun r => strictEq (Room.id room) (Room.id r)) rooms);
    [apply le_n|].
  intros r Hr. destruct (strictEq (Room.id room) (Room.id r)) eqn:E; [|reflexivity].
  apply strictEq_true in E as [E _]. exfalso. apply Hnotin. rewrite E.
  apply in_map, Hr.
Qed.

Lemma RoomFloor_reports (room : Room.t) (b : bool) (g : RoomGroup) :
  RoomFloor room b = Ok (Some g) ->
  room_onClick g = Room.id room /\ room_label_highlighted g = b.
Proof.
  unfold RoomFloor. destruct (roomShape room) as [[shape|]|err]; simpl; try discriminate.
  destruct (roomCenter room) as [c|]; try discriminate.
  intros H. injection H as <-. auto.
Qed.

Lemma Forall2_In_r {A B : Type} (P : A -> B -> Prop) (l : list A) (r : list B) (b : B) :
  Forall2 P l r -> In b r -> exists a, In a l /\ P a b.
Proof.
  induction 1 as [|a b' l r Hab _ IH]; simpl; [contradiction|].
  intros [->|Hin]; [exists a; auto|].
  destruct (IH Hin) as (a' & Ha' & HP). exists a'. auto.
Qed.

(** A selection that names a room highlights the rooms of that id and no
    other: a room of the scene is rendered highlighted exactly when the id
    that a click on it reports is the selected one, and at most one room is
    highlighted when the rooms of the plan have different ids. *)
Theorem highlight_is_single :
  forall (data : BlueprintAnalysis) (id : string) (scene : Scene),
    SceneContent data (Some id) = Ok scene ->
    (forall g, In (Some g) (scene_rooms scene) ->
       (room_label_highlighted g = true <-> room_onClick g = Some id)) /\
    (NoDup (map Room.id (orEmpty (rooms data))) ->
     (List.length (highlighted scene) <= 1)%nat).
Proof.
  intros data id scene H. unfold SceneContent in H.
  destruct (mapM _ (orEmpty (walls data))) as [ws|err]; simpl in H; [|discriminate].
  destruct (mapM _ (orEmpty (rooms data))) as [rs|err] eqn:Hrs; simpl in H;
    [|discriminate].
  injection H as <-. unfold highlighted. simpl. split.
  - intros g Hg.
    destruct (Forall2_In_r _ _ _ _ (mapM_Forall2 _ _ _ Hrs) Hg) as (room & _ & Hroom).
    apply RoomFloor_reports in Hroom as [-> ->].
    destruct (Room.id room) as [rid|]; simpl; [|split; discriminate].
    rewrite String.eqb_eq. split; [intros ->; reflexivity | congruence].
  - intros Hnd. eapply PeanoNat.Nat.le_trans; [exact (lit_rooms_bound (Some id) _ _ Hrs)|].
    apply NoDup_filter_eq, Hnd.
Qed.

Lemma highlight_is_single_witness :
  exists scene,
    SceneContent SAMPLE_DATA (Some "r2") = Ok scene /\
    (forall g, In (Some g) (scene_rooms scene) ->
       (room_label_highlighted g = true <-> room_onClick g = Some "r2")) /\
    (List.length (highlighted scene) <= 1)%nat.
Proof.
  eexists. split; [vm_compute; reflexivity|].
  split.
  - refine (proj1 (highlight_is_single SAMPLE_DATA "r2" _ _)).
    vm_compute. reflexivity.
  - refine (proj2 (highlight_is_single SAMPLE_DATA "r2" _ _) _).
    + vm_compute. reflexivity.
    + simpl. repeat constructor; simpl; intuition discriminate.
Defined.

(** * The application *)

(** ** What every reachable state of [App] satisfies *)

Lemma fold_left_invariant {A B : Type} (P : A -> Prop) (Q : B -> Prop)
    (f : A -> B -> A) :
  (forall a b, P a -> Q b -> P (f a b)) ->
  forall l a, P a -> Forall Q l -> P (fold_left f l a).
Proof.
  intros Hf. induction l as [|b l IH]; simpl; intros a Ha Hl; [exact Ha|].
  inversion Hl; subst. apply IH; auto.
Qed.

Lemma handleMouseMove_frame (st : AppState) (clientX rectLeft rectWidth : float) :
  let st' := handleMouseMove st clientX rectLeft rectWidth in
  step st' = step st /\ analysisData st' = analysisData st /\
  highlightedRoomId st' = highlightedRoomId st /\ pending st' = pending st /\
  imageUrl st' = imageUrl st /\ errorMsg st' = errorMsg st.
Proof.
  unfold handleMouseMove.
  destruct (isResizingReport st); simpl;
    destruct (isResizingView st); simpl; destruct (step st) eqn:Hs; simpl;
    rewrite ?Hs; repeat split.
Qed.


Ltac absurd_pending Hpend :=
  exfalso;
  let X := fresh in
  assert (X : _ = PROCESSING) by (apply Hpend; discriminate); discriminate X.

Lemma handle_coherent (st : AppState) (ev : Event) :
  coherent st -> coherent (handle st ev).
Proof.
  unfold coherent. intros (Hin & Hout & Hpend).
  destruct ev.
  17: { destruct (handleMouseMove_frame st clientX rectLeft rectWidth)
          as (H1 & H2 & H3 & H4 & _).
        unfold handle.
        destruct (step st) eqn:Hs, (pending st) eqn:Hp; simpl;
          rewrite H1, H2, H3, H4, ?Hs, ?Hp; auto. }
  all: unfold handle; destruct (step st) eqn:Hs, (pending st) eqn:Hp; simpl;
    rewrite ?Hs, ?Hp;
    try (split; [|split]; intros; try discriminate; try congruence;
         try (apply Hin; reflexivity);
         try (apply Hout; discriminate);
         try (apply Hpend; discriminate);
         try (split; try reflexivity; apply Hout; discriminate);
         try absurd_pending Hpend;
         fail).
Qed.

(** In every state that the application can reach, the dashboard is shown
    only with the data of an analysis, so [analysisData!] never stands for
    [null]; on the other screens there is neither data nor a selected
    room, so a new plan never inherits the selection left on another. *)
Theorem dashboard_has_data :
  forall events : list Event,
    let st := run events in
    (step st = DASHBOARD -> exists data, analysisData st = Some data) /\
    (step st <> DASHBOARD ->
       analysisData st = None /\ highlightedRoomId st = None).
Proof.
  intros events st.
  assert (H : coherent st).
  { apply (fold_left_invariant coherent (fun _ => True)).
    - intros a b Ha _. apply handle_coherent, Ha.
    - repeat split; intros; try discriminate; try reflexivity. contradiction.
    - apply Forall_forall. auto. }
  destruct H as (Hin & Hout & _). split; [|exact Hout].
  intros Hs. destruct (analysisData st) as [data|] eqn:Hd; [eauto|].
  exfalso. apply (Hin Hs). reflexivity.
Qed.

Lemma dashboard_has_data_witness :
  (exists data, analysisData (run [Start; SampleLoad; SampleReady; RoomPicked (Some "r1")])
                = Some data) /\
  highlightedRoomId
    (run [Start; SampleLoad; SampleReady; RoomPicked (Some "r1"); NewUpload;
          FileChosen; FileRead "data:image/png;base64,AAAA"]) = None.
Proof.
  split.
  - apply (dashboard_has_data [Start; SampleLoad; SampleReady; RoomPicked (Some "r1")]).
    reflexivity.
  - apply (dashboard_has_data
             [Start; SampleLoad; SampleReady; RoomPicked (Some "r1"); NewUpload;
              FileChosen; FileRead "data:image/png;base64,AAAA"]).
    vm_compute. discriminate.
Defined.


Lemma handle_sized (st : AppState) (ev : Event) :
  sized st -> numericMove ev -> sized (handle st ev).
Proof.
  unfold sized. intros (Hw1 & Hw2 & Hr1 & Hr2) Hev.
  destruct ev.
  17: { destruct Hev as [Hx Hq]. unfold handle.
        assert (Hmove : sized (handleMouseMove st clientX rectLeft rectWidth)).
        { unfold sized, handleMouseMove.
          destruct (max_min_range clientX 250 500 Hx eq_refl eq_refl eq_refl) as [Ha Hb].
          destruct (max_min_range _ 0.2 0.8 Hq eq_refl eq_refl eq_refl) as [Hc Hd].
          destruct (isResizingReport st); simpl;
            destruct (isResizingView st); simpl; destruct (step st); simpl; auto. }
        destruct (step st), (pending st); exact Hmove. }
  all: unfold handle; destruct (step st), (pending st); simpl; auto.
Qed.

(** While the panels are dragged the report panel stays between [250] and
    [500] pixels wide and the 2D view between [20%] and [80%] of the views,
    in every reachable state, as long as the mouse positions are numbers
    and the quotient [(clientX - rect.left) / rect.width] is one too (it is
    NaN for a container of width [0] met at its left edge, and NaN then
    goes through [Math.min] and [Math.max] into the ratio). *)
Theorem panels_stay_sized :
  forall events : list Event,
    Forall numericMove events ->
    let st := run events in
    (250 <=? reportWidth st) = true /\ (reportWidth st <=? 500) = true /\
    (0.2 <=? viewSplitRatio st) = true /\ (viewSplitRatio st <=? 0.8) = true.
Proof.
  intros events Hev st.
  apply (fold_left_invariant sized numericMove handle handle_sized events initialApp);
    [repeat split | exact Hev].
Qed.

Lemma panels_stay_sized_witness :
  let st := run [Start; SampleLoad; SampleReady; GrabReport; MouseMove 900 300 1200;
                 MouseUp; GrabView; MouseMove 310 300 1200] in
  (250 <=? reportWidth st) = true /\ (reportWidth st <=? 500) = true /\
  (0.2 <=? viewSplitRatio st) = true /\ (viewSplitRatio st <=? 0.8) = true.
Proof.
  apply panels_stay_sized.
  repeat constructor.
Defined.

(** ** The banner and the scene *)

Lemma find_strictEq_none (hl : option string) (rooms : list Room.t) :
  filter (fun r => strictEq hl (Room.id r)) rooms = [] ->
  find (fun r => strictEq hl (Room.id r)) rooms = None.
Proof.
  induction rooms as [|r rooms IH]; simpl; [reflexivity|].
  destruct (strictEq hl (Room.id r)); [discriminate | exact IH].
Qed.

Lemma find_strictEq_NoDup (hl : option string) (rooms : list Room.t) (room : Room.t) :
  NoDup (map Room.id rooms) -> In room rooms -> strictEq hl (Room.id room) = true ->
  find (fun r => strictEq hl (Room.id r)) rooms = Some room.
Proof.
  induction rooms as [|r rooms IH]; simpl; intros Hnd Hin Heq; [contradiction|].
  inversion Hnd as [|id ids Hnotin Hnd']; subst.
  destruct Hin as [-> | Hin]; [rewrite Heq; reflexivity|].
  destruct (strictEq hl (Room.id r)) eqn:Hr; [|apply IH; assumption].
  exfalso. apply Hnotin.
  apply strictEq_true in Hr as [Hr _]. apply strictEq_true in Heq as [Heq _].
  rewrite <- Hr, Heq. apply in_map, Hin.
Qed.

(** The banner of the report panel and the 3D scene follow the same
    selection.  With a selection that names no room of the plan the banner
    reads [Unknown Room] and no room of the scene is highlighted; when the
    rooms have different ids and the selection names one of them, the
    banner shows the name of that room ([Unknown Room] for an empty
    name). *)
Theorem banner_follows_selection :
  forall (data : BlueprintAnalysis) (id : string) (scene : Scene),
    id <> "" ->
    SceneContent data (Some id) = Ok scene ->
    ((forall room, In room (orEmpty (rooms data)) -> Room.id room <> Some id) ->
     selectedName data (Some id) = Some "Unknown Room" /\ highlighted scene = []) /\
    (forall room,
       NoDup (map Room.id (orEmpty (rooms data))) ->
       In room (orEmpty (rooms data)) -> Room.id room = Some id ->
       selectedName data (Some id) = Some (orText (Some (Room.name room)) "Unknown Room")).
Proof.
  intros data id scene Hid Hscene.
  assert (Hsel : selectedName data (Some id) =
                 Some (orText (option_map Room.name
                                 (find (fun r => strictEq (Some id) (Room.id r))
                                    (orEmpty (rooms data)))) "Unknown Room")).
  { unfold selectedName. destruct id; [congruence | reflexivity]. }
  split.
  - intros Hnone.
    assert (Hf : filter (fun r => strictEq (Some id) (Room.id r)) (orEmpty (rooms data)) = []).
    { apply filter_none. intros room Hin.
      destruct (strictEq (Some id) (Room.id room)) eqn:E; [|reflexivity].
      apply strictEq_true in E as [E _]. exfalso. apply (Hnone room Hin). auto. }
    split.
    + rewrite Hsel, (find_strictEq_none _ _ Hf). reflexivity.
    + unfold SceneContent in Hscene.
      destruct (mapM _ (orEmpty (walls data))) as [ws|err]; simpl in Hscene; [|discriminate].
      destruct (mapM _ (orEmpty (rooms data))) as [rs|err] eqn:Hrs; simpl in Hscene;
        [|discriminate].
      injection Hscene as <-. unfold highlighted. simpl.
      pose proof (lit_rooms_bound (Some id) _ _ Hrs) as Hbound. rewrite Hf in Hbound.
      destruct (filter isLit rs); [reflexivity | inversion Hbound].
  - intros room Hnd Hin Hroom. rewrite Hsel.
    rewrite (find_strictEq_NoDup (Some id) _ room Hnd Hin); [reflexivity|].
    rewrite Hroom. simpl. apply String.eqb_refl.
Qed.

Lemma banner_follows_selection_witness :
  selectedName SAMPLE_DATA (Some "r9") = Some "Unknown Room" /\
  selectedName SAMPLE_DATA (Some "r2") = Some "Meeting Room".
Proof.
  split.
  - refine (proj1 (proj1 (banner_follows_selection SAMPLE_DATA "r9" _ _ _) _)).
    + discriminate.
    + vm_compute. reflexivity.
    + intros room [<-|[<-|[<-|[]]]]; discriminate.
  - refine (proj2 (banner_follows_selection SAMPLE_DATA "r2" _ _ _)
              (Room.mk (Some "r2") "Meeting Room" (Some 250) (pt 70 25)
                 (Some [pt 50 10; pt 90 10; pt 90 40; pt 50 40])
                 (Some "#fce7f3") (Some "Calm Rose")) _ _ _).
    + discriminate.
    + vm_compute. reflexivity.
    + simpl. repeat constructor; simpl; intuition discriminate.
    + right. left. reflexivity.
    + reflexivity.
Defined.

(** ** The toolbar of the 3D viewer *)

Lemma handleUndo_last (camera prev : float * float * float) saved :
  handleUndo (mkView camera (saved ++ [prev])) = mkView prev saved.
Proof.
  unfold handleUndo. simpl. rewrite rev_app_distr. simpl.
  rewrite removelast_last. reflexivity.
Qed.

(** Undo restores the position saved last and forgets it; but nothing
    ever writes the view history, [saveView] being empty: from the initial
    state no sequence of toolbar actions changes the camera position
    [[0, 80, 40]] held by the component, and Undo always finds the history
    empty. *)
Theorem undo_is_inert :
  (forall camera prev saved,
     handleUndo (mkView camera (saved ++ [prev])) = mkView prev saved) /\
  (forall events : list ViewEvent,
     fold_left handleView events initialView = initialView).
Proof.
  split; [apply handleUndo_last|].
  induction events as [|ev events IH]; simpl; [reflexivity|].
  destruct ev; exact IH.
Qed.

(** ** The two viewers *)

Lemma validPoint_numberPoint (polygon : list (option Point2D.t)) :
  (List.length (filter validPoint polygon) <= List.length (flat_map numberPoint polygon))%nat.
Proof.
  induction polygon as [|p polygon IH]; simpl; [apply le_n|].
  destruct p as [[[| |b|px|s] [| |b'|py|s']]|]; simpl; auto.
  destruct (negb (isNaN px) && negb (isNaN py)); simpl; auto using le_n_S, le_S.
Qed.

(** What a rendered room tells about the plan. *)
Lemma RoomFloor_Some (room : Room.t) (b : bool) (g : RoomGroup) :
  RoomFloor room b = Ok (Some g) ->
  (3 <= List.length (validPoints room))%nat /\
  (exists center, Room.center room = Some center) /\
  List.length (THREE.outline (room_shape g)) = List.length (validPoints room) /\
  room_onClick g = Room.id room /\
  room_label_highlighted g = b.
Proof.
  unfold RoomFloor, roomShape.
  destruct (Nat.ltb (List.length (validPoints room)) 3) eqn:Hlt; simpl; [discriminate|].
  apply PeanoNat.Nat.ltb_ge in Hlt.
  destruct (mapM floorVertex (validPoints room)) as [pts|err] eqn:Hpts; simpl;
    [|discriminate].
  unfold roomCenter. destruct (Room.center room) as [c|]; [|discriminate].
  destruct (typeof_number (Point2D.x c) && typeof_number (Point2D.y c)); [|discriminate].
  intros H. injection H as <-. simpl.
  repeat split; [exact Hlt | eauto | apply (mapM_length _ _ _ Hpts)].
Qed.

(** Every room that has a floor slab in the 3D scene has its overlay in the
    2D view: the overlay keeps at least the vertices of the floor profile
    (it keeps NaN points, the floor does not), a click on either reports
    the same id, and both are highlighted by the same selections. *)
Theorem floor_has_overlay :
  forall (room : Room.t) (hl : option string) (g : RoomGroup),
    RoomFloor room (strictEq hl (Room.id room)) = Ok (Some g) ->
    exists o,
      roomOverlay room hl = Some o /\
      (List.length (THREE.outline (room_shape g)) <= List.length (overlay_points o))%nat /\
      overlay_onClick o = room_onClick g /\
      overlay_highlighted o = room_label_highlighted g.
Proof.
  intros room hl g Hg.
  destruct (RoomFloor_Some _ _ _ Hg) as (Hthree & [center Hcenter] & Hlen & Hclick & Hlit).
  unfold roomOverlay, validPoints in *. rewrite Hcenter.
  destruct (Room.polygon room) as [polygon|]; [|inversion Hthree].
  pose proof (validPoint_numberPoint polygon) as Hle.
  destruct polygon as [|p polygon]; [inversion Hthree|].
  destruct (flat_map numberPoint (p :: polygon)) as [|pt pts] eqn:Hpts.
  - exfalso. simpl in Hle.
    apply (PeanoNat.Nat.lt_irrefl 0).
    eapply PeanoNat.Nat.lt_le_trans; [|exact Hle].
    eapply PeanoNat.Nat.lt_le_trans; [|exact Hthree]. repeat constructor.
  - eexists. split; [reflexivity|]. simpl.
    split; [rewrite Hlen; exact Hle|]. split; [symmetry; exact Hclick | symmetry; exact Hlit].
Qed.

Lemma floor_has_overlay_witness :
  exists o,
    roomOverlay (Room.mk (Some "r1") "Open Office" (Some 400) (pt 30 40)
                   (Some [pt 10 10; pt 50 10; pt nan 5; pt 50 70; pt 10 70])
                   None None) (Some "r1") = Some o /\
    (4 <= List.length (overlay_points o))%nat /\
    overlay_onClick o = Some "r1" /\
    overlay_highlighted o = true.
Proof.
  apply (floor_has_overlay
           (Room.mk (Some "r1") "Open Office" (Some 400) (pt 30 40)
              (Some [pt 10 10; pt 50 10; pt nan 5; pt 50 70; pt 10 70])
              None None) (Some "r1")
           (mkRoomGroup
              (THREE.mkShape [(-20, - -20); (0, - -20); (0, - 10); (-20, - 10)] [])
              (mkExtrude 0.1 false None None None None)
              (THREE.mkVector3 0 (-0.1) 0)
              (floorMaterial true)
              (THREE.mkVector3 (-10) 2.5 (-5))
              true "Open Office" (Some "r1"))).
  vm_compute. reflexivity.
Defined.

(** ** The decoder of the voice report *)


Lemma range_In (fuel : nat) (a k : Z) :
  (a <= k < a + Z.of_nat fuel)%Z -> In k (range fuel a).
Proof.
  revert a. induction fuel as [|fuel IH]; simpl; intros a H; [lia|].
  destruct (Z.eq_dec a k) as [->|Hne]; [left; reflexivity|].
  right. apply IH. lia.
Qed.

Lemma samples_exact : forallb sampleOk (range (Nat.pow 2 16) (-32768)) = true.
Proof. vm_compute. reflexivity. Qed.

Lemma sample_exact (k : Z) :
  (-32768 <= k < 32768)%Z ->
  let v := toNumber k / 32768 in
  (-1 <=? v) = true /\ (v <? 1) = true /\ fround v = v.
Proof.
  intros H. pose proof samples_exact as Hall.
  rewrite forallb_forall in Hall.
  assert (Hin : In k (range (Nat.pow 2 16) (-32768))).
  { apply range_In. change (Z.of_nat (Nat.pow 2 16)) with 65536%Z. lia. }
  specialize (Hall k Hin). unfold sampleOk in Hall.
  apply andb_true_iff in Hall as [Hall Heq]. apply andb_true_iff in Hall as [H1 H2].
  apply FloatAxioms.Leibniz.eqb_spec in Heq. auto.
Qed.

Lemma int16_range (lo hi : byte) : (-32768 <= int16 lo hi < 32768)%Z.
Proof.
  unfold int16. pose proof (Byte.to_N_bounded lo). pose proof (Byte.to_N_bounded hi).
  destruct (Z.ltb_spec (Z.of_N (to_N lo) + 256 * Z.of_N (to_N hi)) 32768); lia.
Qed.

Lemma Int16Array_spec (buffer : list byte) :
  match Int16Array buffer with
  | inr values =>
      List.length buffer = (2 * List.length values)%nat /\
      Forall (fun v => (-32768 <= v < 32768)%Z) values
  | inl e => e = RangeError /\ Nat.odd (List.length buffer) = true
  end.
Proof.
  induction buffer as [buffer IH] using (well_founded_induction
                                           (Wf_nat.well_founded_ltof _ (@List.length byte))).
  destruct buffer as [|lo [|hi rest]]; simpl.
  - split; [reflexivity | constructor].
  - split; reflexivity.
  - assert (Hlt : Wf_nat.ltof _ (@List.length byte) rest (lo :: hi :: rest)).
    { unfold Wf_nat.ltof. simpl. lia. }
    specialize (IH rest Hlt).
    destruct (Int16Array rest) as [e|values].
    + destruct IH as [-> Hodd]. split; [reflexivity|].
      change (Nat.odd (S (S (List.length rest))) = true). rewrite Nat.odd_succ_succ. exact Hodd.
    + destruct IH as [Hlen Hall]. split; [simpl; lia|].
      constructor; [apply int16_range | exact Hall].
Qed.

Lemma store_length (cd : list float) (i : nat) (v : float) :
  List.length (store cd i v) = List.length cd.
Proof.
  revert i. induction cd as [|x cd IH]; intros [|i]; simpl; auto.
Qed.

Lemma store_nth_error (cd : list float) (i j : nat) (v : float) :
  nth_error (store cd i v) j =
  if (j =? i)%nat then (if (i <? List.length cd)%nat then Some (fround v) else None)
  else nth_error cd j.
Proof.
  revert i j. induction cd as [|x cd IH]; intros i j; simpl.
  - destruct j, i; simpl; try reflexivity; destruct (j =? i)%nat; reflexivity.
  - destruct i as [|i], j as [|j]; simpl; try reflexivity.
    rewrite IH. reflexivity.
Qed.

Lemma fill_nth_error (f : nat -> float) (k a : nat) (cd : list float) (j : nat) :
  nth_error (fold_left (fun cd i => store cd i (f i)) (seq a k) cd) j =
  if (a <=? j)%nat && (j <? a + k)%nat
  then (if (j <? List.length cd)%nat then Some (fround (f j)) else None)
  else nth_error cd j.
Proof.
  revert a cd. induction k as [|k IH]; intros a cd; simpl.
  - replace ((a <=? j)%nat && (j <? a + 0)%nat) with false; [reflexivity|].
    symmetry. apply andb_false_iff.
    destruct (Nat.leb_spec a j); [right; apply Nat.ltb_ge; lia | left; reflexivity].
  - rewrite IH, store_length, store_nth_error.
    destruct (Nat.leb_spec (S a) j), (Nat.ltb_spec j (S a + k)), (Nat.leb_spec a j),
      (Nat.ltb_spec j (a + S k)), (Nat.eqb_spec j a); simpl; try lia; try reflexivity.
    subst. reflexivity.
Qed.

Lemma fill_all (f : nat -> float) (steps : nat) (cd : list float) :
  (List.length cd <= steps)%nat ->
  fold_left (fun cd i => store cd i (f i)) (seq 0 steps) cd =
  map (fun i => fround (f i)) (seq 0 (List.length cd)).
Proof.
  intros Hle. apply nth_error_ext. intros j.
  rewrite fill_nth_error. simpl.
  destruct (Nat.ltb_spec j steps), (Nat.ltb_spec j (List.length cd)); try lia.
  - rewrite nth_error_map, nth_error_seq.
    destruct (Nat.ltb_spec j (List.length cd)); [reflexivity | lia].
  - symmetry. apply nth_error_None. rewrite length_map, length_seq. lia.
  - rewrite (proj2 (nth_error_None cd j)) by lia.
    symmetry. apply nth_error_None. rewrite length_map, length_seq. lia.
Qed.

Lemma combine_repeat {A B : Type} (l : list A) (x : B) :
  combine l (repeat x (List.length l)) = map (fun a => (a, x)) l.
Proof.
  induction l as [|a l IH]; simpl; [reflexivity|]. rewrite IH. reflexivity.
Qed.

Lemma Int16Array_inr (data : list byte) dataInt16 :
  Int16Array data = inr dataInt16 ->
  List.length data = (2 * List.length dataInt16)%nat /\
  Forall (fun v => (-32768 <= v < 32768)%Z) dataInt16.
Proof.
  intros H. pose proof (Int16Array_spec data) as Hs. rewrite H in Hs. exact Hs.
Qed.

(** The buffer that the decoder returns, channel by channel. *)
Lemma decodeAudioData_inr (data : list byte) (numChannels : nat) channels :
  decodeAudioData data numChannels = inr channels ->
  exists dataInt16,
    Int16Array data = inr dataInt16 /\
    (1 <= numChannels <= 32)%nat /\
    (1 <= List.length dataInt16 / numChannels)%nat /\
    channels =
      map (fun channel =>
             map (fun i => toNumber (nth (i * numChannels + channel) dataInt16 0%Z) / 32768)
               (seq 0 (List.length dataInt16 / numChannels)))
        (seq 0 numChannels).
Proof.
  unfold decodeAudioData, createBuffer.
  destruct (Int16Array data) as [e|dataInt16] eqn:Hview; [discriminate|].
  destruct (Int16Array_inr _ _ Hview) as [_ Hrange].
  set (n := List.length dataInt16).
  destruct (Nat.eqb_spec numChannels 0); [discriminate|].
  destruct (Nat.ltb_spec 32 numChannels); [discriminate|].
  destruct (Nat.eqb_spec (n / numChannels) 0); [discriminate|]. simpl.
  intros Hres. injection Hres as <-. exists dataInt16.
  split; [reflexivity|]. split; [lia|]. split; [fold n; lia|].
  replace (repeat (repeat 0 (n / numChannels)) numChannels)
    with (repeat (repeat 0 (n / numChannels)) (List.length (seq 0 numChannels)))
    by (rewrite length_seq; reflexivity).
  rewrite combine_repeat, map_map.
  apply map_ext_in. intros channel Hch. apply in_seq in Hch.
  unfold fillChannel. rewrite fill_all.
  - rewrite repeat_length. apply map_ext_in. intros i Hi. apply in_seq in Hi.
    assert (Hidx : (i * numChannels + channel < n)%nat).
    { pose proof (Nat.Div0.mul_div_le n numChannels) as Hq.
      assert (Hm : ((i + 1) * numChannels <= n / numChannels * numChannels)%nat)
        by (apply Nat.mul_le_mono_r; unfold n; lia).
      lia. }
    unfold element. rewrite (nth_error_nth' dataInt16 0%Z Hidx).
    apply sample_exact. rewrite Forall_forall in Hrange. apply Hrange, nth_In, Hidx.
  - rewrite repeat_length. apply Nat.Div0.div_le_mono. lia.
Qed.

(** The decoder of the voice report raises a [RangeError] for an odd
    number of bytes, and [createBuffer] refuses an empty buffer: with
    [numChannels] channels it needs at least [2 * numChannels] bytes.  For
    an even number of bytes, from 1 to 32 channels and at least one frame,
    it returns one channel for each, all with [bytes / 2 / numChannels]
    samples; a last frame that is not complete is dropped. *)
Theorem decodeAudioData_shape :
  forall (data : list byte) (numChannels : nat),
    (Nat.odd (List.length data) = true ->
       decodeAudioData data numChannels = inl RangeError) /\
    (Nat.even (List.length data) = true ->
       (List.length data < 2 * numChannels)%nat ->
       decodeAudioData data numChannels = inl NotSupportedError) /\
    (Nat.even (List.length data) = true ->
       (1 <= numChannels <= 32)%nat ->
       (2 * numChannels <= List.length data)%nat ->
       exists channels,
         decodeAudioData data numChannels = inr channels /\
         List.length channels = numChannels /\
         Forall (fun channelData =>
                   List.length channelData =
                     (List.length data / 2 / numChannels)%nat) channels).
Proof.
  intros data numChannels.
  pose proof (Int16Array_spec data) as Hview.
  split; [|split].
  - intros Hodd. unfold decodeAudioData.
    destruct (Int16Array data) as [e|values]; [destruct Hview as [-> _]; reflexivity|].
    destruct Hview as [Hlen _]. rewrite Hlen, Nat.odd_mul in Hodd. discriminate.
  - intros Heven Hshort. unfold decodeAudioData, createBuffer.
    destruct (Int16Array data) as [e|values].
    + destruct Hview as [_ Hodd]. rewrite <- Nat.negb_even, Heven in Hodd. discriminate.
    + destruct Hview as [Hlen _].
      destruct (Nat.eqb_spec numChannels 0); [reflexivity|].
      destruct (Nat.ltb_spec 32 numChannels); [reflexivity|].
      rewrite Nat.div_small by lia. reflexivity.
  - intros Heven Hc Hlong.
    destruct (decodeAudioData data numChannels) as [e|channels] eqn:Hd.
    + exfalso. unfold decodeAudioData, createBuffer in Hd.
      destruct (Int16Array data) as [e'|values].
      * destruct Hview as [_ Hodd]. rewrite <- Nat.negb_even, Heven in Hodd. discriminate.
      * destruct Hview as [Hlen _].
        destruct (Nat.eqb_spec numChannels 0); [lia|].
        destruct (Nat.ltb_spec 32 numChannels); [lia|].
        destruct (Nat.eqb_spec (List.length values / numChannels) 0) as [Hz|]; [|discriminate].
        apply Nat.div_small_iff in Hz; lia.
    + exists channels. split; [reflexivity|].
      destruct (decodeAudioData_inr _ _ _ Hd) as (values & Hv & _ & _ & ->).
      rewrite Hv in Hview. destruct Hview as [Hlen _].
      rewrite length_map, length_seq. split; [reflexivity|].
      apply Forall_forall. intros cd Hcd. apply in_map_iff in Hcd as (ch & <- & _).
      rewrite length_map, length_seq, Hlen.
      rewrite (Nat.mul_comm 2), Nat.div_mul by discriminate. reflexivity.
Qed.

Lemma decodeAudioData_shape_witness :
  decodeAudioData [x00; x80; xff] 1 = inl RangeError /\
  decodeAudioData [] 1 = inl NotSupportedError /\
  exists channels,
    decodeAudioData [x00; x80; xff; x7f; x01; x00; xff; xff; x00; x40] 2 = inr channels /\
    List.length channels = 2%nat /\
    Forall (fun channelData => List.length channelData = 2%nat) channels.
Proof.
  split; [|split].
  - apply decodeAudioData_shape. reflexivity.
  - apply decodeAudioData_shape; [reflexivity | simpl; lia].
  - apply (decodeAudioData_shape [x00; x80; xff; x7f; x01; x00; xff; xff; x00; x40] 2);
      [reflexivity | lia | simpl; lia].
Defined.

Lemma nth_map_seq {A : Type} (f : nat -> A) (k i : nat) (d : A) :
  (i < k)%nat -> nth i (map f (seq 0 k)) d = f i.
Proof.
  intros Hi. rewrite (nth_indep _ d (f 0%nat)) by (rewrite length_map, length_seq; exact Hi).
  rewrite map_nth, seq_nth by exact Hi. reflexivity.
Qed.

(** The decoder separates the channels of interleaved 16-bit PCM and
    scales the samples: sample [i] of channel [c] is the 16-bit integer at
    position [i * numChannels + c] divided by [32768], which the
    [Float32Array] of the channel holds exactly, and every sample of the
    buffer lies in [[-1, 1)]. *)
Theorem decodeAudioData_samples :
  forall (data : list byte) (numChannels : nat) (channels : list (list float)),
    decodeAudioData data numChannels = inr channels ->
    exists dataInt16,
      Int16Array data = inr dataInt16 /\
      (forall c i,
         (c < numChannels)%nat -> (i < List.length dataInt16 / numChannels)%nat ->
         nth i (nth c channels []) nan =
           toNumber (nth (i * numChannels + c) dataInt16 0%Z) / 32768) /\
      Forall (Forall (fun sample => (-1 <=? sample) = true /\ (sample <? 1) = true))
        channels.
Proof.
  intros data numChannels channels Hd.
  destruct (decodeAudioData_inr _ _ _ Hd) as (dataInt16 & Hview & Hc & Hframes & ->).
  exists dataInt16. split; [exact Hview|].
  destruct (Int16Array_inr _ _ Hview) as [_ Hrange]. split.
  - intros c i Hlt Hi.
    rewrite (nth_map_seq _ numChannels c [] Hlt).
    apply (nth_map_seq (fun i => toNumber (nth (i * numChannels + c) dataInt16 0%Z) / 32768)
             _ i nan Hi).
  - apply Forall_forall. intros cd Hcd. apply in_map_iff in Hcd as (c & <- & Hcin).
    apply in_seq in Hcin.
    apply Forall_forall. intros s Hs. apply in_map_iff in Hs as (i & <- & Hiin).
    apply in_seq in Hiin.
    assert (Hidx : (i * numChannels + c < List.length dataInt16)%nat).
    { pose proof (Nat.Div0.mul_div_le (List.length dataInt16) numChannels) as Hq.
      assert (Hm : ((i + 1) * numChannels <=
                    List.length dataInt16 / numChannels * numChannels)%nat)
        by (apply Nat.mul_le_mono_r; lia).
      lia. }
    rewrite Forall_forall in Hrange.
    destruct (sample_exact (nth (i * numChannels + c) dataInt16 0%Z)
                (Hrange _ (nth_In _ _ Hidx))) as (H1 & H2 & _).
    split; assumption.
Qed.

Lemma decodeAudioData_samples_witness :
  exists dataInt16,
    Int16Array [x00; x80; xff; x7f; x01; x00; xff; xff] = inr dataInt16 /\
    (forall c i,
       (c < 2)%nat -> (i < List.length dataInt16 / 2)%nat ->
       nth i (nth c [[-1; 3.0517578125e-05]; [0.999969482421875; -3.0517578125e-05]] []) nan =
         toNumber (nth (i * 2 + c) dataInt16 0%Z) / 32768) /\
    Forall (Forall (fun sample => (-1 <=? sample) = true /\ (sample <? 1) = true))
      [[-1; 3.0517578125e-05]; [0.999969482421875; -3.0517578125e-05]].
Proof.
  apply (decodeAudioData_samples [x00; x80; xff; x7f; x01; x00; xff; xff] 2).
  vm_compute. reflexivity.
Defined.
